(** * MyGAP scraper service: cache-first read endpoints and the scraping scheduler

    A shallow embedding of [main.py] (the FastAPI read, statistics,
    download and scheduler endpoints) and [scheduler.py] (class
    [ScrapingScheduler]), followed by the properties of the orchestration
    layer.

    Conventions.
    - A [datetime] is a number of microseconds on the naive local time line,
      counted from some midnight; a [timedelta] is a number of microseconds.
    - Python values that travel through the program (what [json.load] yields,
      what a scraping function returns, [None]) are values of [pyval].
    - A Python [str] is a [string]: a sequence of characters with code
      points below 256.  In that range the decimal digits of [\d] and
      [int()] are the ten digits [0] to [9].
    - Code that can raise runs in the monad [M]: explicit state passing over
      [world], with a result that is either a raised exception or a value.
    - The five scraping functions ([scrap_*.py]) are collaborators of the
      code modelled here: their behaviour is a Section variable [extract]. *)

From Stdlib Require Import ZArith List String Ascii Bool Lia QArith.
From Stdlib Require Import DecimalString.
Import ListNotations.

Open Scope string_scope.
Open Scope Z_scope.

(* ================================================================= *)
(** ** Python values and exceptions *)

Module Py.

Set Warnings "-register-all".

(** Values of JSON shape.  [PDict] keeps the insertion order of a Python
    dict; lookups take the first binding of a key. *)
Inductive pyval : Type :=
| PNone
| PBool (b : bool)
| PInt (z : Z)
| PFloat (q : Q)
| PStr (s : string)
| PList (l : list pyval)
| PDict (d : list (string * pyval)).

(** [type(v).__name__] *)
Definition type_name (v : pyval) : string :=
  match v with
  | PNone => "NoneType"
  | PBool _ => "bool"
  | PInt _ => "int"
  | PFloat _ => "float"
  | PStr _ => "str"
  | PList _ => "list"
  | PDict _ => "dict"
  end.

(** [v is None] *)
Definition is_none (v : pyval) : bool :=
  match v with PNone => true | _ => false end.

(** Truth value of [v], as tested by [if v]. *)
Definition truthy (v : pyval) : bool :=
  match v with
  | PNone => false
  | PBool b => b
  | PInt z => negb (z =? 0)
  | PFloat q => negb (Qeq_bool q 0)
  | PStr s => negb (String.eqb s "")
  | PList l => match l with [] => false | _ => true end
  | PDict d => match d with [] => false | _ => true end
  end.

(** [k in d] and [d[k]] on a dict. *)
Fixpoint dict_get (k : string) (d : list (string * pyval)) : option pyval :=
  match d with
  | [] => None
  | (k', v) :: d' => if String.eqb k k' then Some v else dict_get k d'
  end.

(** [d[k] = v]: replace the binding in place, or append a new one. *)
Fixpoint dict_set {V : Type} (k : string) (v : V) (d : list (string * V))
  : list (string * V) :=
  match d with
  | [] => [(k, v)]
  | (k', v') :: d' =>
      if String.eqb k k' then (k, v) :: d' else (k', v') :: dict_set k v d'
  end.

(** [k in l] for a list of strings. *)
Definition str_in (k : string) (l : list string) : bool :=
  existsb (String.eqb k) l.

(** Exceptions, all of them subclasses of [Exception].  [HTTPException] is
    FastAPI's; every other class carries its message. *)
Inductive exc_class : Type :=
| TypeError
| AttributeError
| ValidationError
| OtherException (name : string).

Inductive exn : Type :=
| PyExc (cls : exc_class) (msg : string)
| HTTPException (status_code : Z) (detail : string).

Definition string_of_Z (z : Z) : string :=
  NilZero.string_of_int (Z.to_int z).

(** [str(e)]; Starlette renders an [HTTPException] as ["<status>: <detail>"]. *)
Definition str (e : exn) : string :=
  match e with
  | PyExc _ msg => msg
  | HTTPException c d => string_of_Z c ++ ": " ++ d
  end.

(** [len(v)] *)
Definition len (v : pyval) : exn + Z :=
  match v with
  | PStr s => inr (Z.of_nat (String.length s))
  | PList l => inr (Z.of_nat (List.length l))
  | PDict d => inr (Z.of_nat (List.length d))
  | _ => inl (PyExc TypeError
                ("object of type '" ++ type_name v ++ "' has no len()"))
  end.

(** [iter(v)]: the items a [for] loop over [v] visits. *)
Definition iter (v : pyval) : exn + list pyval :=
  match v with
  | PList l => inr l
  | PDict d => inr (map (fun kv => PStr (fst kv)) d)
  | PStr s => inr (map (fun c => PStr (String c EmptyString))
                       (list_ascii_of_string s))
  | _ => inl (PyExc TypeError
                ("'" ++ type_name v ++ "' object is not iterable"))
  end.

(** [v.items()] *)
Definition items (v : pyval) : exn + list (string * pyval) :=
  match v with
  | PDict d => inr d
  | _ => inl (PyExc AttributeError
                ("'" ++ type_name v ++ "' object has no attribute 'items'"))
  end.

End Py.
Export Py.

(* ================================================================= *)
(** ** The world the program runs in *)

Module World.

(** The five scraping functions imported from [scrap_tbm], [scrap_pf],
    [scrap_am], [scrap_my_organic] and [scrap_tanaman]. *)
Inductive scraper : Type :=
| extract_mygap_tbm_data
| extract_mygap_pf_data
| extract_mygap_am_data
| extract_mygap_organic_data
| extract_mygap_tanaman_data.

(** A file of the working directory: its name, its modification time
    ([os.path.getmtime]) and what [json.load] does on it (the value it
    yields, or the exception that opening or decoding raises).  The
    directory holds regular files only: the modification time of each can
    be read and lies in the range of [datetime]. *)
Record file : Type := mkFile {
  name : string;
  mtime : Z;
  content : exn + pyval
}.

(** What a scraping function can see and change: the clock and the files. *)
Record env : Type := mkEnv {
  clock : Z;
  files : list file
}.

(** Targets of [threading.Thread(target=...)]. *)
Inductive task : Type :=
| run_scheduler_task                 (* scheduler.py, line 163 *)
| run_scraping_task                  (* main.py, line 963 *)
| run_scraper_task (scraper_name : string).   (* main.py, line 1006 *)

(** Observable actions, recorded in the order they happen. *)
Inductive event : Type :=
| EvExtract (f : scraper) (save_to_file : bool)
| EvSleep (seconds : Z)
| EvThreadStart (target : task).

(** Life of the thread object held in [scheduler_thread]: started but not
    yet past [self.running = True], inside the [while] loop, returned. *)
Inductive thread_phase : Type := Spawned | Looping | Finished.

(** [Thread.is_alive()] *)
Definition is_alive (ph : thread_phase) : bool :=
  match ph with Finished => false | _ => true end.

(** A job of the [schedule] library: [every(interval).<unit>], the optional
    [at(...)] time of day, and the two run times the library keeps. *)
Record job : Type := mkJob {
  job_id : nat;
  period : Z;
  at_time : option Z;
  last_run : option Z;
  next_run : Z
}.

Record world : Type := mkWorld {
  w_env : env;
  trace : list event;
  (* the global [scraping_scheduler] object *)
  running : bool;
  scheduler_thread : option thread_phase;
  (* the default scheduler of the [schedule] module *)
  jobs : list job;
  next_job_id : nat
}.

Definition set_env (e : env) (w : world) : world :=
  mkWorld e (trace w) (running w) (scheduler_thread w) (jobs w) (next_job_id w).

Definition set_clock (t : Z) (w : world) : world :=
  set_env (mkEnv t (files (w_env w))) w.

Definition record_event (ev : event) (w : world) : world :=
  mkWorld (w_env w) (trace w ++ [ev]) (running w) (scheduler_thread w)
          (jobs w) (next_job_id w).

Definition set_running (b : bool) (w : world) : world :=
  mkWorld (w_env w) (trace w) b (scheduler_thread w) (jobs w) (next_job_id w).

Definition set_scheduler_thread (t : option thread_phase) (w : world) : world :=
  mkWorld (w_env w) (trace w) (running w) t (jobs w) (next_job_id w).

Definition set_jobs (js : list job) (w : world) : world :=
  mkWorld (w_env w) (trace w) (running w) (scheduler_thread w) js (next_job_id w).

Definition add_job (mk : nat -> job) (w : world) : world :=
  mkWorld (w_env w) (trace w) (running w) (scheduler_thread w)
          (jobs w ++ [mk (next_job_id w)]) (S (next_job_id w)).

(** One microsecond is the unit of time. *)
Definition seconds (n : Z) : Z := n * 1000000.
Definition timedelta_days (n : Z) : Z := n * seconds 86400.

(** *** The monad of the program: state passing with exceptions *)

Definition M (A : Type) : Type := world -> (exn + A) * world.

Definition ret {A : Type} (a : A) : M A := fun w => (inr a, w).

Definition raise {A : Type} (e : exn) : M A := fun w => (inl e, w).

Definition bind {A B : Type} (m : M A) (k : A -> M B) : M B :=
  fun w => match m w with
           | (inl e, w') => (inl e, w')
           | (inr a, w') => k a w'
           end.

(** [try: m  except Exception as e: h e] *)
Definition try_except {A : Type} (m : M A) (h : exn -> M A) : M A :=
  fun w => match m w with
           | (inl e, w') => h e w'
           | (inr a, w') => (inr a, w')
           end.

(** A pure computation that may raise. *)
Definition lift {A : Type} (r : exn + A) : M A := fun w => (r, w).

Definition gets {A : Type} (f : world -> A) : M A := fun w => (inr (f w), w).

Definition modify (f : world -> world) : M unit := fun w => (inr tt, f w).

Notation "x <- m ;; k" := (bind m (fun x => k))
  (at level 61, m at next level, right associativity).
Notation "m ;;; k" := (bind m (fun _ => k))
  (at level 61, right associativity).

(** [datetime.now()] *)
Definition datetime_now : M Z := gets (fun w => clock (w_env w)).

(** [time.sleep(n)] lets [n] seconds pass. *)
Definition sleep (n : Z) : M unit :=
  modify (fun w => record_event (EvSleep n)
                     (set_clock (clock (w_env w) + seconds n) w)).

(** [for x in l: acc = body x acc] *)
Fixpoint for_each {A S : Type} (l : list A) (body : A -> S -> M S) (acc : S)
  : M S :=
  match l with
  | [] => ret acc
  | x :: l' => acc' <- body x acc ;; for_each l' body acc'
  end.

(** *** [glob.glob] on patterns of the form [prefix*suffix] *)

Definition ends_with (suf s : string) : bool :=
  let n := String.length s in
  let k := String.length suf in
  String.eqb (substring (n - k) k s) suf.

Definition glob_match (pat : string * string) (s : string) : bool :=
  (String.length (fst pat) + String.length (snd pat) <=? String.length s)%nat
  && String.prefix (fst pat) s && ends_with (snd pat) s.

Definition glob (pat : string * string) : M (list file) :=
  gets (fun w => filter (fun f => glob_match pat (name f)) (files (w_env w))).

(** [max(fs, key=os.path.getmtime)]: the first file of largest [mtime]. *)
Fixpoint max_by_mtime_from (best : file) (fs : list file) : file :=
  match fs with
  | [] => best
  | f :: fs' =>
      max_by_mtime_from (if mtime best <? mtime f then f else best) fs'
  end.

Definition max_by_mtime (fs : list file) : option file :=
  match fs with
  | [] => None
  | f :: fs' => Some (max_by_mtime_from f fs')
  end.

(** Calling a scraping function: the call is recorded, then the function
    acts on the clock and the files and returns a value or raises. *)
Definition call_extract
    (extract : scraper -> bool -> env -> (exn + pyval) * env)
    (f : scraper) (save_to_file : bool) : M pyval :=
  fun w =>
    let w1 := record_event (EvExtract f save_to_file) w in
    let (r, e') := extract f save_to_file (w_env w1) in
    (r, set_env e' w1).

End World.
Export World.

(* ================================================================= *)
(** ** The [schedule] library, as far as the scheduler uses it *)

Module Schedule.

Definition ScheduleValueError (msg : string) : exn :=
  PyExc (OtherException "ScheduleValueError") msg.

Definition digit (c : ascii) : option Z :=
  let n := Z.of_nat (nat_of_ascii c) in
  if (48 <=? n) && (n <=? 57) then Some (n - 48) else None.

(** Two characters matching [[0-k]\d]. *)
Definition two_digits (k : Z) (a b : ascii) : option Z :=
  match digit a, digit b with
  | Some x, Some y => if x <=? k then Some (10 * x + y) else None
  | _, _ => None
  end.

Definition invalid_time_format : string :=
  "Invalid time format for a daily job (valid format is HH:MM(:SS)?)".

(** The message of the hour check; the library leaves its placeholder
    unfilled. *)
Definition invalid_number_of_hours : string :=
  "Invalid number of hours ({} is not between 0 and 23)".

(** What [$] lets follow the pattern: nothing, or one final newline. *)
Definition at_end (rest : string) : bool :=
  match rest with
  | EmptyString => true
  | String c EmptyString => Ascii.eqb c "010"
  | _ => false
  end.

(** The part of a time string after [HH:MM]: the optional [:SS], then the
    end of the string.  The result is the number of seconds. *)
Definition parse_seconds (rest : string) : option Z :=
  if at_end rest then Some 0
  else
    match rest with
    | String c (String s1 (String s2 rest')) =>
        if Ascii.eqb c ":" && at_end rest' then two_digits 5 s1 s2 else None
    | _ => None
    end.

(** [Job.at(time_str)] of a daily job: [re.match] of [time_str] against
    [^[0-2]\d:[0-5]\d(:[0-5]\d)?$], where [$] also matches before a final
    newline; then the fields are split at [:], read by [int()], which
    ignores that newline, and the hour must be at most 23.  The result is
    the time of day. *)
Definition parse_at_time (time_str : string) : exn + Z :=
  match time_str with
  | String h1 (String h2 (String c (String m1 (String m2 rest)))) =>
      match (if Ascii.eqb c ":" then two_digits 2 h1 h2 else None),
            two_digits 5 m1 m2, parse_seconds rest with
      | Some h, Some m, Some s =>
          if h <=? 23 then inr (seconds (h * 3600 + m * 60 + s))
          else inl (ScheduleValueError invalid_number_of_hours)
      | _, _, _ => inl (ScheduleValueError invalid_time_format)
      end
  | _ => inl (ScheduleValueError invalid_time_format)
  end.

Definition day : Z := timedelta_days 1.

(** [Job._schedule_next_run()] at time [now]: one period ahead; with an
    [at] time, moved to that time of day, and one day earlier when the job
    is daily, has not run in the last period, and the time of day is still
    ahead today. *)
Definition schedule_next_run (now : Z) (j : job) : Z :=
  let next := now + period j in
  match at_time j with
  | None => next
  | Some t =>
      let next := (next / day) * day + t in
      let not_run_lately :=
        match last_run j with
        | None => true
        | Some l => period j <? next - l
        end in
      if not_run_lately && (period j =? day) && (now mod day <? t)
      then next - day else next
  end.

(** [schedule.every().day.at(time_str).do(job_func)] *)
Definition every_day_at_do (time_str : string) : M unit :=
  t <- lift (parse_at_time time_str) ;;
  now <- datetime_now ;;
  modify (add_job (fun id =>
    let j := mkJob id day (Some t) None 0 in
    mkJob id day (Some t) None (schedule_next_run now j))).

(** [schedule.every(n).minutes.do(job_func)] *)
Definition every_minutes_do (n : Z) : M unit :=
  now <- datetime_now ;;
  modify (add_job (fun id =>
    let j := mkJob id (seconds (60 * n)) None None 0 in
    mkJob id (seconds (60 * n)) None None (schedule_next_run now j))).

(** [schedule.clear()] *)
Definition clear : M unit := modify (set_jobs []).

(** [schedule.get_jobs()] *)
Definition get_jobs : M (list job) := gets jobs.

(** [min(job.next_run for job in jobs)] on a non-empty list. *)
Definition min_next_run (j : job) (js : list job) : Z :=
  fold_left (fun m j' => if next_run j' <? m then next_run j' else m)
            js (next_run j).

(** Jobs are ordered by [next_run]; [sorted] is stable: a job goes before
    the later jobs of the list that are due at the same time or after it. *)
Fixpoint insert_job (j : job) (js : list job) : list job :=
  match js with
  | [] => [j]
  | j' :: js' =>
      if next_run j <=? next_run j' then j :: js else j' :: insert_job j js'
  end.

Definition sorted_jobs (js : list job) : list job :=
  fold_right insert_job [] js.

(** [Job.run()], once [job_func] has returned: stamp [last_run] and
    schedule the next run. *)
Definition reschedule (id : nat) : M unit :=
  now <- datetime_now ;;
  modify (fun w => set_jobs
    (map (fun j =>
            if Nat.eqb (job_id j) id then
              let j' := mkJob id (period j) (at_time j) (Some now) (next_run j) in
              mkJob id (period j) (at_time j) (Some now) (schedule_next_run now j')
            else j)
         (jobs w)) w).

(** [schedule.run_pending()], for jobs whose function is [job_func]. *)
Definition run_pending (job_func : M unit) : M unit :=
  now <- datetime_now ;;
  js <- get_jobs ;;
  let runnable := filter (fun j => next_run j <=? now) js in
  for_each (sorted_jobs runnable)
           (fun j _ => job_func ;;; reschedule (job_id j)) tt.

End Schedule.

(* ================================================================= *)
(** ** scheduler.py *)

Module Scheduler.

(** What [run_all_scrapers] computes and writes to the log. *)
Record batch_summary : Type := mkSummary {
  results : list (string * bool);
  total_duration : Z;
  successful_scrapers : list string;
  failed_scrapers : list string
}.

(** The dict returned by [get_scheduler_status]. *)
Record scheduler_status : Type := mkStatus {
  status_running : bool;
  status_next_run : option string;
  status_available_scrapers : list string
}.

Section ScrapingScheduler.

Variable extract : scraper -> bool -> env -> (exn + pyval) * env.

(** [datetime.strftime] with the format ["%Y-%m-%d %H:%M:%S"]. *)
Variable strftime : Z -> string.

(** [self.scraping_functions], in insertion order. *)
Definition scraping_functions : list (string * scraper) :=
  [ ("TBM", extract_mygap_tbm_data);
    ("PF", extract_mygap_pf_data);
    ("AM", extract_mygap_am_data);
    ("Organic", extract_mygap_organic_data);
    ("Tanaman", extract_mygap_tanaman_data) ].

Definition run_scraping_job (scraper_name : string) (scraper_func : scraper)
  : M bool :=
  try_except
    (start_time <- datetime_now ;;
     data <- call_extract extract scraper_func true ;;
     end_time <- datetime_now ;;
     let duration := end_time - start_time in
     if negb (is_none data) then
       let record_count :=
         match data with PList l => Z.of_nat (List.length l) | _ => 0 end in
       ret true
     else
       ret false)
    (fun e => ret false).

Definition run_all_scrapers : M batch_summary :=
  overall_start_time <- datetime_now ;;
  results <- for_each scraping_functions
               (fun '(scraper_name, scraper_func) results =>
                  success <- run_scraping_job scraper_name scraper_func ;;
                  let results := dict_set scraper_name success results in
                  sleep 2 ;;;
                  ret results)
               [] ;;
  overall_end_time <- datetime_now ;;
  let total_duration := overall_end_time - overall_start_time in
  ret (mkSummary results total_duration
         (map fst (filter (fun r => snd r) results))
         (map fst (filter (fun r => negb (snd r)) results))).

Definition schedule_daily_scraping (time_str : string) : M unit :=
  Schedule.every_day_at_do time_str.

Definition schedule_immediate_test : M unit :=
  Schedule.every_minutes_do 1.

(** The thread running [run_scheduler] advances by [thread_step]: the
    first step sets the flag and enters the loop; each later step is one
    test of [while self.running] followed, when it holds, by the loop
    body. *)
Definition thread_step : M unit :=
  th <- gets scheduler_thread ;;
  match th with
  | Some Spawned =>
      modify (set_running true) ;;;
      modify (set_scheduler_thread (Some Looping))
  | Some Looping =>
      r <- gets running ;;
      if r then
        try_except
          (Schedule.run_pending (run_all_scrapers ;;; ret tt) ;;;
           sleep 30)
          (fun e => sleep 60)
      else
        modify (set_scheduler_thread (Some Finished))
  | _ => ret tt
  end.

Definition start_background_scheduler (time_str : string) : M unit :=
  th <- gets scheduler_thread ;;
  if match th with Some ph => is_alive ph | None => false end then
    ret tt
  else
    schedule_daily_scraping time_str ;;;
    modify (set_scheduler_thread (Some Spawned)) ;;;
    modify (record_event (EvThreadStart run_scheduler_task)).

Definition stop_scheduler : M unit :=
  modify (set_running false) ;;;
  th <- gets scheduler_thread ;;
  match th with
  | Some _ => Schedule.clear
  | None => ret tt
  end.

(** The earliest [next_run] among the jobs, before it is formatted. *)
Definition next_run_datetime (w : world) : option Z :=
  match jobs w with
  | [] => None
  | j :: js => Some (Schedule.min_next_run j js)
  end.

Definition get_next_run_time : M (option string) :=
  jobs <- Schedule.get_jobs ;;
  match jobs with
  | j :: js => ret (Some (strftime (Schedule.min_next_run j js)))
  | [] => ret None
  end.

Definition run_single_scraper (scraper_name : string) : M bool :=
  match find (fun kv => String.eqb scraper_name (fst kv)) scraping_functions with
  | None => ret false
  | Some (_, scraper_func) => run_scraping_job scraper_name scraper_func
  end.

(** Module-level functions acting on the global [scraping_scheduler]. *)
Definition start_scheduler (time_str : string) : M unit :=
  start_background_scheduler time_str.

Definition run_manual_scraping : M unit :=
  run_all_scrapers ;;; ret tt.

Definition get_scheduler_status : M scheduler_status :=
  running <- gets running ;;
  next_run <- get_next_run_time ;;
  ret (mkStatus running next_run (map fst scraping_functions)).

End ScrapingScheduler.

End Scheduler.

(* ================================================================= *)
(** ** main.py *)

Module Main.

(** An instance of one of the record models: every declared field, in
    declaration order, with its [Optional[str]] value. *)
Definition record : Type := list (string * option string).

(** [TBMResponse], [PFResponse], ... : the same five fields. *)
Record response : Type := mkResponse {
  success : bool;
  message : string;
  total_records : Z;
  timestamp : Z;          (* the datetime that [isoformat()] renders *)
  data : list record
}.

(** [TBMRecord.model_fields]; [PFRecord], [OrganicRecord] and
    [TanamanRecord] declare the same fields. *)
Definition TBMRecord_fields : list string :=
  [ "no_pensijilan"; "kategori_pemohon"; "nama"; "negeri"; "daerah";
    "jenis_tanaman"; "kategori_komoditi"; "kategori_tanaman";
    "luas_ladang"; "tahun_pensijilan"; "tarikh_pensijilan";
    "tempoh_sah_laku" ].

(** [AMRecord.model_fields] *)
Definition AMRecord_fields : list string :=
  [ "no_pensijilan"; "kategori_pemohon"; "nama"; "negeri"; "daerah";
    "jenis_tanaman"; "kategori_komoditi"; "kategori_tanaman"; "bil_haif";
    "luas_ladang"; "tahun_pensijilan"; "tarikh_pensijilan";
    "tempoh_sah_laku" ].

(** What differs between the five read endpoints: the record model, the
    glob pattern of the cache files (the text before and after its [*]) and
    a word in the messages. *)
Definition model_name (s : scraper) : string :=
  match s with
  | extract_mygap_tbm_data => "TBMRecord"
  | extract_mygap_pf_data => "PFRecord"
  | extract_mygap_am_data => "AMRecord"
  | extract_mygap_organic_data => "OrganicRecord"
  | extract_mygap_tanaman_data => "TanamanRecord"
  end.

Definition model_fields (s : scraper) : list string :=
  match s with
  | extract_mygap_am_data => AMRecord_fields
  | _ => TBMRecord_fields
  end.

Definition glob_pattern (s : scraper) : string * string :=
  match s with
  | extract_mygap_tbm_data => ("mygap_data_tbm", ".json")
  | extract_mygap_pf_data => ("mygap_data_pf", ".json")
  | extract_mygap_am_data => ("mygap_data_am_", ".json")
  | extract_mygap_organic_data => ("mygap_data_organic_", ".json")
  | extract_mygap_tanaman_data => ("mygap_data_tanaman_", ".json")
  end.

Definition label (s : scraper) : string :=
  match s with
  | extract_mygap_tbm_data | extract_mygap_pf_data => ""
  | extract_mygap_am_data => "AM "
  | extract_mygap_organic_data => "Organic "
  | extract_mygap_tanaman_data => "Tanaman "
  end.

(** Validation of one [Optional[str] = None] field from the keyword
    arguments: a missing argument takes the default. *)
Definition validate_field (v : option pyval) : option (option string) :=
  match v with
  | None => Some None
  | Some PNone => Some None
  | Some (PStr s) => Some (Some s)
  | Some _ => None
  end.

Fixpoint validate_fields (fields : list string) (kwargs : list (string * pyval))
  : option record :=
  match fields with
  | [] => Some []
  | f :: fields' =>
      match validate_field (dict_get f kwargs), validate_fields fields' kwargs with
      | Some v, Some r => Some ((f, v) :: r)
      | _, _ => None
      end
  end.

(** The model class called on the keyword arguments: the instance, or
    pydantic's [ValidationError] (its message is shortened here). *)
Definition construct (s : scraper) (kwargs : list (string * pyval))
  : exn + record :=
  match validate_fields (model_fields s) kwargs with
  | Some r => inr r
  | None => inl (PyExc ValidationError
                   ("validation error for " ++ model_name s))
  end.

(** [{k: v for k, v in item.items() if k in Model.model_fields}] *)
Definition clean_item (s : scraper) (item : pyval)
  : exn + list (string * pyval) :=
  match items item with
  | inl e => inl e
  | inr kvs => inr (filter (fun kv => str_in (fst kv) (model_fields s)) kvs)
  end.

(** One turn of the conversion loop. *)
Definition convert_item (s : scraper) (item : pyval) : exn + record :=
  match clean_item s item with
  | inl e => inl e
  | inr cleaned_item => construct s cleaned_item
  end.

(** The body of [for item in raw_data: ... records.append(record)] over
    the items the loop visits. *)
Fixpoint convert_items (s : scraper) (its : list pyval) : exn + list record :=
  match its with
  | [] => inr []
  | item :: its' =>
      match convert_item s item with
      | inl e => inl e
      | inr r =>
          match convert_items s its' with
          | inl e => inl e
          | inr rs => inr (r :: rs)
          end
      end
  end.

Definition convert (s : scraper) (raw_data : pyval) : exn + list record :=
  match iter raw_data with
  | inl e => inl e
  | inr its => convert_items s its
  end.

Section ReadEndpoints.

Variable extract : scraper -> bool -> env -> (exn + pyval) * env.

(** The inner [try] of a read endpoint (lines 238-250 for TBM): load the
    newest cache file; any exception leaves [raw_data = None]. *)
Definition load_cache (latest_file : file) : M pyval :=
  try_except
    (file_data <- lift (content latest_file) ;;
     let raw_data :=
       match file_data with
       | PList _ => file_data
       | PDict d =>
           match dict_get "data" d with
           | Some v => v
           | None => file_data
           end
       | _ => file_data
       end in
     (if truthy raw_data then lift (len raw_data) else ret 0) ;;;
     ret raw_data)
    (fun e => ret PNone).

(** Lines 223-252: [raw_data] after the cache has been consulted.  The
    modification times are those of the [file] records, read without
    error. *)
Definition read_cache (s : scraper) : M pyval :=
  json_files <- glob (glob_pattern s) ;;
  match max_by_mtime json_files with
  | Some latest_file =>
      now <- datetime_now ;;
      let file_age := now - mtime latest_file in
      if file_age <? timedelta_days 1 then load_cache latest_file
      else ret PNone
  | None => ret PNone
  end.

(** The body shared by [get_mygap_data], [get_mygap_pf_data],
    [get_mygap_am_data], [get_mygap_organic_data] and
    [get_mygap_tanaman_data]. *)
Definition read_endpoint (s : scraper) : M response :=
  try_except
    (raw_data <- read_cache s ;;
     fetched <-
       (if is_none raw_data then
          raw_data <- call_extract extract s true ;;
          if is_none raw_data then
            raise (HTTPException 500
                     ("Failed to extract " ++ label s ++
                      "data from MyGAP website. The website might be unavailable."))
          else ret (raw_data, "fresh")
        else ret (raw_data, "cache")) ;;
     let '(raw_data, data_source) := fetched in
     records <- lift (convert s raw_data) ;;
     let n := Z.of_nat (List.length records) in
     let message := "Successfully loaded " ++ string_of_Z n ++ " MyGAP " ++
                    label s ++ "certification records from " ++ data_source in
     now <- datetime_now ;;
     ret (mkResponse true message n now records))
    (fun e => raise (HTTPException 500 ("Internal server error: " ++ str e))).

Definition get_mygap_data : M response := read_endpoint extract_mygap_tbm_data.
Definition get_mygap_pf_data : M response := read_endpoint extract_mygap_pf_data.
Definition get_mygap_am_data : M response := read_endpoint extract_mygap_am_data.
Definition get_mygap_organic_data : M response :=
  read_endpoint extract_mygap_organic_data.
Definition get_mygap_tanaman_data : M response :=
  read_endpoint extract_mygap_tanaman_data.

End ReadEndpoints.

(** *** Scheduler endpoints *)

Record SchedulerStatusResponse : Type := mkSchedulerStatusResponse {
  ssr_success : bool;
  ssr_message : string;
  ssr_timestamp : Z;
  scheduler_running : bool;
  next_run_time : option string;
  available_scrapers : list string
}.

Record ManualScrapingResponse : Type := mkManualScrapingResponse {
  msr_success : bool;
  msr_message : string;
  msr_timestamp : Z;
  started_at : Z
}.

(** The dict returned by [run_single_scraper_endpoint]. *)
Record SingleScraperResponse : Type := mkSingleScraperResponse {
  single_success : bool;
  single_message : string;
  single_timestamp : Z;
  single_started_at : Z;
  single_scraper : string
}.

(** The dict returned by [health_check]. *)
Record HealthResponse : Type := mkHealthResponse {
  health_status : string;
  health_timestamp : Z;
  health_service : string;
  health_scheduler : bool * option string
}.

(** The name [get_scheduler_status] in the module namespace of main.py is
    bound twice: by the import from [scheduler] (lines 19-25), then by the
    [async def] of the status endpoint (lines 920-921; the decorator
    [app.get(...)] hands back the function it registers).  A body that
    mentions the name reads the namespace when it runs, after both
    statements have been executed. *)
Inductive global_object : Type :=
| scheduler_get_scheduler_status     (* the function of scheduler.py *)
| endpoint_get_scheduler_status.     (* the coroutine function of line 921 *)

Definition bindings_of_get_scheduler_status : list global_object :=
  [ scheduler_get_scheduler_status;    (* from scheduler import ... *)
    endpoint_get_scheduler_status ].   (* async def get_scheduler_status() *)

Definition global_get_scheduler_status : global_object :=
  last bindings_of_get_scheduler_status scheduler_get_scheduler_status.

(** What a call of that name yields: the status dict, or, for a coroutine
    function called without [await], a coroutine object. *)
Inductive status_object : Type :=
| StatusDict (d : Scheduler.scheduler_status)
| CoroutineObject.

(** [status[key]], with [proj] the field that [key] names. *)
Definition subscript {A : Type} (status : status_object)
    (proj : Scheduler.scheduler_status -> A) : exn + A :=
  match status with
  | StatusDict d => inr (proj d)
  | CoroutineObject =>
      inl (PyExc TypeError "'coroutine' object is not subscriptable")
  end.

Section SchedulerEndpoints.

Variable extract : scraper -> bool -> env -> (exn + pyval) * env.
Variable strftime : Z -> string.

Definition startup_event : M unit :=
  Scheduler.start_scheduler "00:00".

Definition shutdown_event : M unit :=
  Scheduler.stop_scheduler.

(** [get_scheduler_status()] as written in main.py. *)
Definition call_get_scheduler_status : M status_object :=
  match global_get_scheduler_status with
  | scheduler_get_scheduler_status =>
      d <- Scheduler.get_scheduler_status strftime ;; ret (StatusDict d)
  | endpoint_get_scheduler_status => ret CoroutineObject
  end.

(** The endpoint [GET /scheduler/status]. *)
Definition get_scheduler_status : M SchedulerStatusResponse :=
  try_except
    (status <- call_get_scheduler_status ;;
     now <- datetime_now ;;
     running <- lift (subscript status Scheduler.status_running) ;;
     next_run <- lift (subscript status Scheduler.status_next_run) ;;
     scrapers <- lift (subscript status Scheduler.status_available_scrapers) ;;
     ret (mkSchedulerStatusResponse true
            "Scheduler status retrieved successfully" now
            running next_run scrapers))
    (fun e => raise (HTTPException 500 ("Internal server error: " ++ str e))).

(** The endpoint [GET /health]; it has no handler of its own. *)
Definition health_check : M HealthResponse :=
  scheduler_status <- call_get_scheduler_status ;;
  now <- datetime_now ;;
  running <- lift (subscript scheduler_status Scheduler.status_running) ;;
  next_run <- lift (subscript scheduler_status Scheduler.status_next_run) ;;
  ret (mkHealthResponse "healthy" now "MyGAP Data Scraper API"
         (running, next_run)).

(** The endpoint [POST /scheduler/run-now]: the batch runs in a thread of
    its own, which the endpoint only starts. *)
Definition run_manual_scraping_endpoint : M ManualScrapingResponse :=
  try_except
    (start_time <- datetime_now ;;
     modify (record_event (EvThreadStart run_scraping_task)) ;;;
     now <- datetime_now ;;
     ret (mkManualScrapingResponse true
            "Manual scraping of all data sources has been started in background"
            now start_time))
    (fun e => raise (HTTPException 500 ("Internal server error: " ++ str e))).

(** The endpoint [POST /scheduler/run-single/{scraper_name}]. *)
Definition run_single_scraper_endpoint (scraper_name : string)
  : M SingleScraperResponse :=
  try_except
    (let valid_scrapers := ["TBM"; "PF"; "AM"; "Organic"; "Tanaman"] in
     (if negb (str_in scraper_name valid_scrapers) then
        raise (HTTPException 400
                 "Invalid scraper name. Must be one of: ['TBM', 'PF', 'AM', 'Organic', 'Tanaman']")
      else ret tt) ;;;
     start_time <- datetime_now ;;
     modify (record_event (EvThreadStart (run_scraper_task scraper_name))) ;;;
     now <- datetime_now ;;
     ret (mkSingleScraperResponse true
            ("Manual scraping of " ++ scraper_name ++
             " data source has been started in background")
            now start_time scraper_name))
    (fun e =>
       match e with
       | HTTPException _ _ => raise e
       | _ => raise (HTTPException 500 ("Internal server error: " ++ str e))
       end).

(** What the thread started by [run_single_scraper_endpoint] executes. *)
Definition run_scraper (scraper_name : string) : M bool :=
  Scheduler.run_single_scraper extract scraper_name.

End SchedulerEndpoints.

(** *** Statistics and download endpoints *)

(** The output name of a data field: [projek] is published as
    [kategori_pemohon]. *)
Definition output_field (field : string) : string :=
  if String.eqb field "projek" then "kategori_pemohon" else field.

(** [record.get(key, default)] *)
Definition get_default (record : pyval) (key : string) (default : pyval)
  : exn + pyval :=
  match record with
  | PDict d =>
      inr (match dict_get key d with Some v => v | None => default end)
  | _ => inl (PyExc AttributeError
                ("'" ++ type_name record ++ "' object has no attribute 'get'"))
  end.

Section StatsAndDownloads.

Variable extract : scraper -> bool -> env -> (exn + pyval) * env.

(** [DATA_FIELDS] of [scrap_pf] and of [scrap_am]. *)
Variable PF_DATA_FIELDS : list string.
Variable AM_DATA_FIELDS : list string.

(** Whether [str.strip()] removes a character. *)
Variable isspace : ascii -> bool.

(** Floating-point numbers; [percentage c t] is
    [round(c / t * 100, 1)] and [float_zero] is [round(0, 1)]. *)
Variable float : Type.
Variable percentage : Z -> Z -> float.
Variable float_zero : float.

(** [datetime.strftime] with the format ["%Y%m%d_%H%M%S"]. *)
Variable strftime : Z -> string.

Record FieldStats : Type := mkFieldStats {
  field_name : string;
  completed_count : Z;
  total_count : Z;
  completion_percentage : float
}.

Record StatsResponse : Type := mkStatsResponse {
  stats_success : bool;
  stats_message : string;
  stats_total_records : Z;
  stats_timestamp : Z;
  field_statistics : list FieldStats
}.

(** The content and the file name of the [JSONResponse] of a download. *)
Record DownloadResponse : Type := mkDownloadResponse {
  extracted_at : Z;
  download_total_records : Z;
  download_fields : list string;
  download_data : pyval;
  download_filename : string
}.

Fixpoint lstrip (l : list ascii) : list ascii :=
  match l with
  | c :: l' => if isspace c then lstrip l' else l
  | [] => []
  end.

(** [s.strip()] *)
Definition strip (s : string) : string :=
  string_of_list_ascii
    (rev (lstrip (rev (lstrip (list_ascii_of_string s))))).

(** [v.strip()] on any value. *)
Definition py_strip (v : pyval) : exn + pyval :=
  match v with
  | PStr s => inr (PStr (strip s))
  | _ => inl (PyExc AttributeError
                ("'" ++ type_name v ++ "' object has no attribute 'strip'"))
  end.

(** [sum(1 for record in records if record.get(field, '').strip())] *)
Fixpoint count_completed (field : string) (records : list pyval) : exn + Z :=
  match records with
  | [] => inr 0
  | record :: records' =>
      match get_default record field (PStr "") with
      | inl e => inl e
      | inr v =>
          match py_strip v with
          | inl e => inl e
          | inr stripped =>
              match count_completed field records' with
              | inl e => inl e
              | inr n => inr ((if truthy stripped then 1 else 0) + n)
              end
          end
      end
  end.

(** One turn of [for field in PF_DATA_FIELDS]. *)
Definition field_stat (raw_data : pyval) (total_records : Z) (field : string)
  : exn + FieldStats :=
  let output_field := output_field field in
  match iter raw_data with
  | inl e => inl e
  | inr records =>
      match count_completed output_field records with
      | inl e => inl e
      | inr completed_count =>
          let completion_percentage :=
            if 0 <? total_records
            then percentage completed_count total_records
            else float_zero in
          inr (mkFieldStats output_field completed_count total_records
                            completion_percentage)
      end
  end.

Fixpoint field_stats_loop (raw_data : pyval) (total_records : Z)
    (fields : list string) : exn + list FieldStats :=
  match fields with
  | [] => inr []
  | field :: fields' =>
      match field_stat raw_data total_records field with
      | inl e => inl e
      | inr stat =>
          match field_stats_loop raw_data total_records fields' with
          | inl e => inl e
          | inr stats => inr (stat :: stats)
          end
      end
  end.

(** The endpoint [GET /mygap/stats]. *)
Definition get_mygap_stats : M StatsResponse :=
  try_except
    (raw_data <- call_extract extract extract_mygap_tbm_data false ;;
     (if is_none raw_data then
        raise (HTTPException 500
                 "Failed to extract data from MyGAP website. The website might be unavailable.")
      else ret tt) ;;;
     total_records <- lift (len raw_data) ;;
     field_stats <- lift (field_stats_loop raw_data total_records
                            PF_DATA_FIELDS) ;;
     now <- datetime_now ;;
     ret (mkStatsResponse true
            ("Statistics for " ++ string_of_Z total_records ++
             " MyGAP certification records")
            total_records now field_stats))
    (fun e => raise (HTTPException 500 ("Internal server error: " ++ str e))).

(** The field list of a download: [AM_DATA_FIELDS] for the [AM] endpoint,
    [PF_DATA_FIELDS] for the four others. *)
Definition download_source_fields (s : scraper) : list string :=
  match s with
  | extract_mygap_am_data => AM_DATA_FIELDS
  | _ => PF_DATA_FIELDS
  end.

(** The body shared by the five functions named [download_json], the
    endpoints [GET /mygap/download/{tbm,am,organic,tanaman,pf}]. *)
Definition download_json (s : scraper) : M DownloadResponse :=
  try_except
    (raw_data <- call_extract extract s false ;;
     (if is_none raw_data then
        raise (HTTPException 500 "Failed to extract data from MyGAP website")
      else ret tt) ;;;
     now <- datetime_now ;;
     let filename := "mygap_data_" ++ strftime now ++ ".json" in
     extracted_at <- datetime_now ;;
     total_records <- lift (len raw_data) ;;
     ret (mkDownloadResponse extracted_at total_records
            (map output_field (download_source_fields s))
            raw_data filename))
    (fun e => raise (HTTPException 500 ("Internal server error: " ++ str e))).

End StatsAndDownloads.

End Main.

(* ================================================================= *)
(** ** Vocabulary of the properties *)

Module Props.

(** The newest cache file of a source, as the read endpoint selects it. *)
Definition latest_snapshot (s : scraper) (w : world) : option file :=
  max_by_mtime
    (filter (fun f => glob_match (Main.glob_pattern s) (name f))
            (files (w_env w))).

(** Age of a file at the time of the world. *)
Definition age (w : world) (f : file) : Z := clock (w_env w) - mtime f.

(** The records of a well-formed snapshot file: a plain list, or an object
    whose [data] key holds the list. *)
Definition snapshot_records (v : pyval) : option (list pyval) :=
  match v with
  | PList l => Some l
  | PDict d =>
      match dict_get "data" d with
      | Some (PList l) => Some l
      | _ => None
      end
  | _ => None
  end.

(** The handler of the outer [try] of the endpoints. *)
Definition internal_error (e : exn) : exn :=
  HTTPException 500 ("Internal server error: " ++ str e).

(** The exception raised when the scraping function returns [None]. *)
Definition fetch_failed (s : scraper) : exn :=
  HTTPException 500
    ("Failed to extract " ++ Main.label s ++
     "data from MyGAP website. The website might be unavailable.").

(** The successful response for the records [recs]. *)
Definition loaded (s : scraper) (data_source : string)
    (recs : list Main.record) (now : Z) : Main.response :=
  let n := Z.of_nat (List.length recs) in
  Main.mkResponse true
    ("Successfully loaded " ++ string_of_Z n ++ " MyGAP " ++
     Main.label s ++ "certification records from " ++ data_source)
    n now recs.

(** Outcome of an endpoint once [raw_data] is settled. *)
Definition finish (s : scraper) (data_source : string) (raw_data : pyval)
    (w : world) : (exn + Main.response) * world :=
  match Main.convert s raw_data with
  | inl e => (inl (internal_error e), w)
  | inr recs => (inr (loaded s data_source recs (clock (w_env w))), w)
  end.

(** Outcome of an endpoint that finds no cache file at all: the scraping
    function is called and decides the result. *)
Definition fetch_path
    (extract : scraper -> bool -> env -> (exn + pyval) * env)
    (s : scraper) (w : world) : (exn + Main.response) * world :=
  let w1 := record_event (EvExtract s true) w in
  let (r, e') := extract s true (w_env w) in
  let w2 := set_env e' w1 in
  match r with
  | inl e => (inl (internal_error e), w2)
  | inr raw_data =>
      if is_none raw_data then (inl (internal_error (fetch_failed s)), w2)
      else finish s "fresh" raw_data w2
  end.

(** The records of an outcome, when it has any. *)
Definition outcome_records (o : (exn + Main.response) * world)
  : option (list Main.record) :=
  match fst o with
  | inr resp => Some (Main.data resp)
  | inl _ => None
  end.

(** The calls of scraping functions recorded in a trace. *)
Definition extract_calls (t : list event) : list scraper :=
  flat_map (fun ev => match ev with EvExtract f _ => [f] | _ => [] end) t.

(** The pauses recorded in a trace. *)
Definition sleeps (t : list event) : list Z :=
  flat_map (fun ev => match ev with EvSleep n => [n] | _ => [] end) t.

(** The threads started in a trace. *)
Definition thread_starts (t : list event) : list task :=
  flat_map (fun ev => match ev with EvThreadStart k => [k] | _ => [] end) t.

(** The world after a call of the scraping function [f] made by
    [run_scraping_job], and whether the job counts as a success. *)
Definition after_job
    (extract : scraper -> bool -> env -> (exn + pyval) * env)
    (f : scraper) (w : world) : world :=
  set_env (snd (extract f true (w_env w))) (record_event (EvExtract f true) w).

Definition job_success
    (extract : scraper -> bool -> env -> (exn + pyval) * env)
    (f : scraper) (w : world) : bool :=
  match fst (extract f true (w_env w)) with
  | inl _ => false
  | inr data => negb (is_none data)
  end.

(** The world after [time.sleep(n)]. *)
Definition after_sleep (n : Z) (w : world) : world :=
  record_event (EvSleep n) (set_clock (clock (w_env w) + seconds n) w).

(** The events of a batch over the sources [l]. *)
Definition batch_events (l : list (string * scraper)) : list event :=
  flat_map (fun kv => [EvExtract (snd kv) true; EvSleep 2]) l.

(** Sum of the time the scraping functions of [l] take. *)
Definition total_latency (latency : scraper -> Z) (l : list (string * scraper))
  : Z :=
  fold_right (fun kv acc => latency (snd kv) + acc) 0 l.

(** [results] after the assignments [results[name] = success], in order. *)
Definition assign_all (names : list string) (bs : list bool)
    (acc : list (string * bool)) : list (string * bool) :=
  fold_left (fun r nb => dict_set (fst nb) (snd nb) r) (combine names bs) acc.

(** A world with the given clock and files, nothing recorded, and the
    scheduler as the module creates it. *)
Definition initial_world (now : Z) (fs : list file) : world :=
  mkWorld (mkEnv now fs) [] false None [] 0.

(** *** Persistence by the scraping functions *)




End Props.
Import Props.

(* ================================================================= *)
(** ** Sample worlds *)

Module Examples.

Definition hours (n : Z) : Z := seconds (3600 * n).

(** A raw record with two declared keys and one that no model declares. *)
Definition raw_item : pyval :=
  PDict [ ("no_pensijilan", PStr "MYGAP-0001");
          ("nama", PStr "Kebun Seri");
          ("catatan", PInt 7) ].

(** The [TBMRecord] built from [raw_item]. *)
Definition tbm_record : Main.record :=
  [ ("no_pensijilan", Some "MYGAP-0001"); ("kategori_pemohon", None);
    ("nama", Some "Kebun Seri"); ("negeri", None); ("daerah", None);
    ("jenis_tanaman", None); ("kategori_komoditi", None);
    ("kategori_tanaman", None); ("luas_ladang", None);
    ("tahun_pensijilan", None); ("tarikh_pensijilan", None);
    ("tempoh_sah_laku", None) ].


(** Scraping functions that fail, and that return one record, without
    touching the clock or the files. *)
Definition failing_extract (f : scraper) (save_to_file : bool) (e : env)
  : (exn + pyval) * env := (inr PNone, e).

Definition working_extract (f : scraper) (save_to_file : bool) (e : env)
  : (exn + pyval) * env := (inr (PList [raw_item]), e).

(** A scraping function that takes three seconds and fails. *)
Definition slow_extract (f : scraper) (save_to_file : bool) (e : env)
  : (exn + pyval) * env :=
  (inr PNone, mkEnv (clock e + seconds 3) (files e)).

(** Scraping functions of which the one for [AM] fails: by returning
    [None], or by raising. *)
Definition am_down_extract (f : scraper) (save_to_file : bool) (e : env)
  : (exn + pyval) * env :=
  match f with
  | extract_mygap_am_data => (inr PNone, e)
  | _ => (inr (PList [raw_item]), e)
  end.

Definition am_raising_extract (f : scraper) (save_to_file : bool) (e : env)
  : (exn + pyval) * env :=
  match f with
  | extract_mygap_am_data =>
      (inl (PyExc (OtherException "ConnectionError") "connection refused"), e)
  | _ => (inr (PList [raw_item]), e)
  end.

(** The summary of a batch, when it completes. *)
Definition summary_of (o : (exn + Scheduler.batch_summary) * world)
  : option (list string * list string) :=
  match fst o with
  | inr s => Some (Scheduler.successful_scrapers s, Scheduler.failed_scrapers s)
  | inl _ => None
  end.


(** A rendering of datetimes, standing for [strftime]. *)
Definition render (t : Z) : string := string_of_Z t.

(** An [AM] snapshot written at time 0, read 30 hours later. *)
Definition am_file : file :=
  mkFile "mygap_data_am_20240101_000000.json" 0 (inr (PList [raw_item])).

Definition am_stale_world : world := initial_world (hours 30) [am_file].

(** A [PF] snapshot written at time 0, read 2 hours later. *)
Definition pf_file : file :=
  mkFile "mygap_data_pf_20240101_000000.json" 0
         (inr (PDict [("data", PList [raw_item])])).

Definition pf_fresh_world : world := initial_world (hours 2) [pf_file].

(** A [TBM] cache file that is not JSON, one hour old. *)
Definition garbled_file : file :=
  mkFile "mygap_data_tbm_20240101_000000.json" 0
         (inl (PyExc (OtherException "JSONDecodeError")
                     "Expecting value: line 1 column 1 (char 0)")).

Definition garbled_world : world := initial_world (hours 1) [garbled_file].

(** A [TBM] cache file holding a JSON object without a [data] key, one
    hour old. *)
Definition odd_file : file :=
  mkFile "mygap_data_tbm_20240101_000000.json" 0
         (inr (PDict [("foo", PStr "bar")])).

Definition odd_world : world := initial_world (hours 1) [odd_file].

End Examples.

(* ================================================================= *)
(** ** More sample worlds *)

(** A string of ASCII characters only. *)
Definition ascii_only (s : string) : bool :=
  forallb (fun c => (nat_of_ascii c <? 128)%nat) (list_ascii_of_string s).

Module MoreExamples.

(** A raw record whose [nama] is a number. *)
Definition bad_item : pyval :=
  PDict [ ("no_pensijilan", PStr "MYGAP-0002"); ("nama", PInt 7) ].

(** A fresh [TBM] cache file holding [bad_item]. *)
Definition bad_file : file :=
  mkFile "mygap_data_tbm_20240101_000000.json" 0 (inr (PList [bad_item])).

Definition bad_world : world := initial_world (Examples.hours 1) [bad_file].

(** Two [PF] snapshots and a [TBM] one; the second [PF] file is newer. *)
Definition pf_old : file :=
  mkFile "mygap_data_pf_20240101_000000.json" 0 (inr (PList [])).

Definition pf_new : file :=
  mkFile "mygap_data_pf_20240101_060000.json" (Examples.hours 6)
         (inr (PList [Examples.raw_item])).

Definition tbm_newest : file :=
  mkFile "mygap_data_tbm_20240101_070000.json" (Examples.hours 7)
         (inr (PList [])).

Definition mixed_world : world :=
  initial_world (Examples.hours 8) [pf_old; pf_new; tbm_newest].

(** A scraping function that takes three seconds and returns one record. *)
Definition slow_working_extract (f : scraper) (save_to_file : bool) (e : env)
  : (exn + pyval) * env :=
  (inr (PList [Examples.raw_item]), mkEnv (clock e + seconds 3) (files e)).

(** A scheduler whose thread is polling, with the daily job of midnight
    due since one second. *)
Definition midnight_job : job :=
  mkJob 0 Schedule.day (Some 0) None (Examples.hours 24).

Definition due_world : world :=
  mkWorld (mkEnv (Examples.hours 24 + seconds 1) []) [] true (Some Looping)
          [midnight_job] 1.

(** The same scheduler one hour before midnight. *)
Definition idle_world : world :=
  mkWorld (mkEnv (Examples.hours 23) []) [] true (Some Looping)
          [midnight_job] 1.

(** A scheduler object on which [schedule_daily_scraping] was called
    without a thread ever being started. *)
Definition unstarted_world : world :=
  mkWorld (mkEnv (Examples.hours 9) []) [] false None [midnight_job] 1.

(** A scheduler right after [start_background_scheduler]: the thread has
    not reached its first statement yet. *)
Definition spawned_world : world :=
  mkWorld (mkEnv (Examples.hours 9) []) [EvThreadStart run_scheduler_task]
          false (Some Spawned) [midnight_job] 1.

(** Data fields of a scraper, with [projek] among them. *)
Definition data_fields : list string :=
  ["no_pensijilan"; "projek"; "nama"].

(** Space and tab as the characters stripped. *)
Definition blank (c : ascii) : bool :=
  Ascii.eqb c " " || Ascii.eqb c "009".

(** Three records: complete, with a blank name, and without a name. *)
Definition stats_records : pyval :=
  PList [ PDict [("no_pensijilan", PStr "A1"); ("kategori_pemohon", PStr "x");
                 ("nama", PStr "Kebun")];
          PDict [("no_pensijilan", PStr "A2"); ("nama", PStr "  ")];
          PDict [("no_pensijilan", PStr "A3")] ].

Definition stats_extract (f : scraper) (save_to_file : bool) (e : env)
  : (exn + pyval) * env := (inr stats_records, e).

(** Records of which one holds [None] under a data field. *)
Definition none_records : pyval :=
  PList [ PDict [("no_pensijilan", PStr "A1"); ("nama", PNone)] ].

Definition none_extract (f : scraper) (save_to_file : bool) (e : env)
  : (exn + pyval) * env := (inr none_records, e).

(** No records at all. *)
Definition empty_extract (f : scraper) (save_to_file : bool) (e : env)
  : (exn + pyval) * env := (inr (PList []), e).

(** Percentages kept as the pair of counts they are computed from. *)
Definition pair_percentage (c t : Z) : option (Z * Z) := Some (c, t).

(** The statistics of [stats_records] over [data_fields]. *)
Definition stats_response : Main.StatsResponse (option (Z * Z)) :=
  Main.mkStatsResponse (option (Z * Z)) true
    "Statistics for 3 MyGAP certification records" 3 0
    [ Main.mkFieldStats (option (Z * Z)) "no_pensijilan" 3 3 (Some (3, 3));
      Main.mkFieldStats (option (Z * Z)) "kategori_pemohon" 1 3 (Some (1, 3));
      Main.mkFieldStats (option (Z * Z)) "nama" 1 3 (Some (1, 3)) ].

(** The download of [Examples.working_extract] at time 5. *)
Definition download_response : Main.DownloadResponse :=
  Main.mkDownloadResponse 5 1
    ["no_pensijilan"; "kategori_pemohon"; "nama"]
    (PList [Examples.raw_item]) "mygap_data_5.json".

End MoreExamples.

(* ================================================================= *)
(** ** The read endpoints *)

Section ReadPath.

Variable extract : scraper -> bool -> env -> (exn + pyval) * env.

(** The cache phase never raises and leaves the world as it is. *)
Lemma read_cache_total (s : scraper) (w : world) :
  exists v, Main.read_cache s w = (inr v, w).
Proof.
  unfold Main.read_cache, bind, glob, gets.
  destruct (max_by_mtime _) as [f|]; [|eexists; reflexivity].
  unfold datetime_now, gets.
  destruct (_ <? _); [|eexists; reflexivity].
  unfold Main.load_cache, try_except, bind, lift.
  destruct (content f) as [e|v]; [eexists; reflexivity|].
  match goal with |- context [if truthy ?r then _ else _] =>
    destruct (truthy r); [destruct (len r)|] end;
    unfold ret; eexists; reflexivity.
Qed.

(** After a cache miss the endpoint is decided by the scraping function. *)
Lemma read_endpoint_miss (s : scraper) (w : world) :
  Main.read_cache s w = (inr PNone, w) ->
  Main.read_endpoint extract s w = fetch_path extract s w.
Proof.
  intros H.
  unfold Main.read_endpoint, fetch_path, try_except, bind.
  rewrite H. cbn [is_none].
  unfold call_extract. cbn [w_env record_event].
  destruct (extract s true (w_env w)) as [[e|raw] e'].
  - reflexivity.
  - destruct (is_none raw) eqn:Hn.
    + reflexivity.
    + unfold ret, finish, lift.
      destruct (Main.convert s raw); reflexivity.
Qed.

(** After a cache hit the scraping function is not called. *)
Lemma read_endpoint_hit (s : scraper) (w : world) (raw : pyval) :
  Main.read_cache s w = (inr raw, w) ->
  is_none raw = false ->
  Main.read_endpoint extract s w = finish s "cache" raw w.
Proof.
  intros H Hn.
  unfold Main.read_endpoint, finish, try_except, bind.
  rewrite H, Hn. unfold ret, lift.
  destruct (Main.convert s raw); reflexivity.
Qed.

(** *** The cache phase, case by case *)

Lemma read_cache_absent (s : scraper) (w : world) :
  latest_snapshot s w = None ->
  Main.read_cache s w = (inr PNone, w).
Proof.
  unfold latest_snapshot, Main.read_cache, bind, glob, gets.
  intros ->. reflexivity.
Qed.

Lemma read_cache_stale (s : scraper) (w : world) (f : file) :
  latest_snapshot s w = Some f ->
  timedelta_days 1 <= age w f ->
  Main.read_cache s w = (inr PNone, w).
Proof.
  unfold latest_snapshot, age, Main.read_cache, bind, glob, gets, datetime_now.
  intros -> Hage. unfold gets.
  destruct (Z.ltb_spec (clock (w_env w) - mtime f) (timedelta_days 1)); [lia|].
  reflexivity.
Qed.

Lemma read_cache_fresh (s : scraper) (w : world) (f : file) :
  latest_snapshot s w = Some f ->
  age w f < timedelta_days 1 ->
  Main.read_cache s w = Main.load_cache f w.
Proof.
  unfold latest_snapshot, age, Main.read_cache, bind, glob, gets, datetime_now.
  intros -> Hage. unfold gets.
  destruct (Z.ltb_spec (clock (w_env w) - mtime f) (timedelta_days 1)); [|lia].
  reflexivity.
Qed.

Lemma load_cache_undecodable (w : world) (f : file) (e : exn) :
  content f = inl e ->
  Main.load_cache f w = (inr PNone, w).
Proof.
  unfold Main.load_cache, try_except, bind, lift. intros ->. reflexivity.
Qed.

Lemma load_cache_snapshot (w : world) (f : file) (v : pyval)
    (its : list pyval) :
  content f = inr v ->
  snapshot_records v = Some its ->
  Main.load_cache f w = (inr (PList its), w).
Proof.
  unfold Main.load_cache, try_except, bind, lift, snapshot_records.
  intros -> Hv.
  destruct v as [| | | | |l|d]; try discriminate.
  - injection Hv as ->. destruct its; reflexivity.
  - destruct (dict_get "data" d) as [[| | | | |l|]|]; try discriminate.
    injection Hv as ->. destruct its; reflexivity.
Qed.

Lemma read_endpoint_absent (s : scraper) (w : world) :
  latest_snapshot s w = None ->
  Main.read_endpoint extract s w = fetch_path extract s w.
Proof.
  intros H. apply read_endpoint_miss, read_cache_absent, H.
Qed.

(** *** Construction of the records *)

Lemma str_in_In (k : string) (l : list string) :
  str_in k l = true <-> In k l.
Proof.
  unfold str_in. rewrite existsb_exists. split.
  - intros [x [Hin Heq]]. apply String.eqb_eq in Heq. subst. exact Hin.
  - intros Hin. exists k. split; [exact Hin|apply String.eqb_refl].
Qed.

Lemma dict_get_filter (fields : list string) (f : string)
    (kvs : list (string * pyval)) :
  str_in f fields = true ->
  dict_get f (filter (fun kv => str_in (fst kv) fields) kvs) = dict_get f kvs.
Proof.
  intros Hf. induction kvs as [|[k v] kvs IH]; [reflexivity|].
  cbn [filter fst dict_get].
  destruct (String.eqb f k) eqn:Hk.
  - apply String.eqb_eq in Hk. subst k. rewrite Hf.
    cbn [dict_get]. rewrite String.eqb_refl. reflexivity.
  - destruct (str_in k fields); [cbn [dict_get]; rewrite Hk|]; exact IH.
Qed.

Lemma filter_keys_declared (fields : list string)
    (kvs : list (string * pyval)) (k : string) :
  In k (map fst (filter (fun kv => str_in (fst kv) fields) kvs)) ->
  In k fields.
Proof.
  rewrite in_map_iff. intros [[k' v] [Hk Hin]]. cbn [fst] in Hk. subst k'.
  apply filter_In in Hin. destruct Hin as [_ Hin].
  apply str_in_In, Hin.
Qed.

Lemma validate_fields_spec (fields : list string)
    (kwargs : list (string * pyval)) (r : Main.record) :
  Main.validate_fields fields kwargs = Some r ->
  map fst r = fields
  /\ forall f, In f fields -> dict_get f kwargs = None -> In (f, None) r.
Proof.
  revert r. induction fields as [|f0 fields IH]; intros r H.
  - injection H as <-. split; [reflexivity|intros f []].
  - cbn [Main.validate_fields] in H.
    destruct (Main.validate_field (dict_get f0 kwargs)) as [v0|] eqn:Hv;
      [|discriminate].
    destruct (Main.validate_fields fields kwargs) as [r'|]; [|discriminate].
    injection H as <-.
    destruct (IH r' eq_refl) as [Hkeys Hnull].
    split; [cbn [map fst]; f_equal; exact Hkeys|].
    intros f [<-|Hin] Hnone.
    + rewrite Hnone in Hv. injection Hv as <-. left. reflexivity.
    + right. apply Hnull; assumption.
Qed.

(** What one turn of the conversion loop does to an item. *)
Lemma convert_item_spec (s : scraper) (item : pyval) (r : Main.record) :
  Main.convert_item s item = inr r ->
  exists kvs cleaned_item,
    item = PDict kvs
    /\ Main.clean_item s item = inr cleaned_item
    /\ (forall k, In k (map fst cleaned_item) -> In k (Main.model_fields s))
    /\ Main.construct s cleaned_item = inr r
    /\ map fst r = Main.model_fields s
    /\ (forall f, In f (Main.model_fields s) ->
                  dict_get f kvs = None -> In (f, None) r).
Proof.
  unfold Main.convert_item, Main.clean_item. intros H.
  destruct item as [| | | | | |kvs]; try discriminate.
  cbn [items] in *.
  exists kvs. eexists. split; [reflexivity|]. split; [reflexivity|].
  split; [intros k; apply filter_keys_declared|].
  split; [exact H|].
  unfold Main.construct in H.
  destruct (Main.validate_fields _ _) as [r'|] eqn:Hv; [|discriminate].
  injection H as <-.
  destruct (validate_fields_spec _ _ _ Hv) as [Hkeys Hnull].
  split; [exact Hkeys|].
  intros f Hin Hnone. apply Hnull; [exact Hin|].
  rewrite dict_get_filter; [exact Hnone|apply str_in_In, Hin].
Qed.

Lemma convert_items_spec (s : scraper) (its : list pyval)
    (recs : list Main.record) :
  Main.convert_items s its = inr recs ->
  Forall2 (fun item r => Main.convert_item s item = inr r) its recs.
Proof.
  revert recs. induction its as [|item its IH]; intros recs H.
  - injection H as <-. constructor.
  - cbn [Main.convert_items] in H.
    destruct (Main.convert_item s item) as [e|r] eqn:Hr; [discriminate|].
    destruct (Main.convert_items s its) as [e|rs]; [discriminate|].
    injection H as <-. constructor; [exact Hr|apply IH; reflexivity].
Qed.

(** A response carries the records converted from some [raw_data]. *)
Lemma read_endpoint_response (s : scraper) (w w' : world)
    (resp : Main.response) :
  Main.read_endpoint extract s w = (inr resp, w') ->
  exists raw_data, Main.convert s raw_data = inr (Main.data resp).
Proof.
  intros H.
  destruct (read_cache_total s w) as [v Hv].
  assert (Hfin : forall src raw w0,
             finish s src raw w0 = (inr resp, w') ->
             Main.convert s raw = inr (Main.data resp)).
  { unfold finish. intros src raw w0 Hf.
    destruct (Main.convert s raw) as [e|recs]; [discriminate|].
    injection Hf as <- _. reflexivity. }
  destruct (is_none v) eqn:Hn.
  - destruct v; try discriminate.
    rewrite (read_endpoint_miss s w Hv) in H. unfold fetch_path in H.
    destruct (extract s true (w_env w)) as [[e|raw] e']; [discriminate|].
    destruct (is_none raw); [discriminate|].
    exists raw. eapply Hfin, H.
  - rewrite (read_endpoint_hit s w v Hv Hn) in H.
    exists v. eapply Hfin, H.
Qed.

(** *** Properties of the read path *)

(** The fetch path calls the scraping function of the source once. *)
Lemma fetch_path_trace (s : scraper) (w : world) :
  trace (snd (fetch_path extract s w))
  = (trace w ++ [EvExtract s true])%list.
Proof.
  unfold fetch_path, finish.
  destruct (extract s true (w_env w)) as [[e|raw] e']; [reflexivity|].
  destruct (is_none raw); [reflexivity|].
  destruct (Main.convert s raw); reflexivity.
Qed.

(** C1. For every source: when the newest cache file is absent or at least
    one day old and the scraping function returns [None], the endpoint
    raises an [HTTPException] of status 500, having called the scraping
    function once; no response, hence no stale snapshot, is returned. *)
Theorem C1_stale_or_absent_cache_and_failed_fetch_raise_500
    (s : scraper) (w : world) :
  (forall f, latest_snapshot s w = Some f -> timedelta_days 1 <= age w f) ->
  fst (extract s true (w_env w)) = inr PNone ->
  exists detail w',
    Main.read_endpoint extract s w = (inl (HTTPException 500 detail), w')
    /\ trace w' = (trace w ++ [EvExtract s true])%list.
Proof.
  intros Hstale Hfetch.
  assert (Hmiss : Main.read_cache s w = (inr PNone, w)).
  { destruct (latest_snapshot s w) as [f|] eqn:Hl.
    - apply (read_cache_stale s w f Hl), Hstale; reflexivity.
    - apply read_cache_absent, Hl. }
  rewrite (read_endpoint_miss s w Hmiss).
  unfold fetch_path.
  destruct (extract s true (w_env w)) as [r e'].
  cbn [fst] in Hfetch. subst r. cbn [is_none].
  eexists. eexists. split; reflexivity.
Qed.

(** C2. When the newest cache file is less than one day old and holds a
    well-formed snapshot whose items convert to the records [recs], the
    endpoint answers with [recs], marked as coming from the cache, and the
    world is left as it was: no call of a scraping function is recorded. *)
Theorem C2_fresh_cache_is_served_without_fetch
    (s : scraper) (w : world) (f : file) (v : pyval) (its : list pyval)
    (recs : list Main.record) :
  latest_snapshot s w = Some f ->
  age w f < timedelta_days 1 ->
  content f = inr v ->
  snapshot_records v = Some its ->
  Main.convert_items s its = inr recs ->
  Main.read_endpoint extract s w =
    (inr (loaded s "cache" recs (clock (w_env w))), w)
  /\ extract_calls (trace (snd (Main.read_endpoint extract s w)))
     = extract_calls (trace w).
Proof.
  intros Hl Hage Hc Hv Hrecs.
  assert (Hread : Main.read_endpoint extract s w =
                  (inr (loaded s "cache" recs (clock (w_env w))), w)).
  { rewrite (read_endpoint_hit s w (PList its)).
    - unfold finish, Main.convert. cbn [iter]. rewrite Hrecs. reflexivity.
    - rewrite (read_cache_fresh s w f Hl Hage).
      apply (load_cache_snapshot w f v its Hc Hv).
    - reflexivity. }
  split; [exact Hread|]. rewrite Hread. reflexivity.
Qed.

(** The handler of the inner [try]: when the newest cache file is less
    than one day old and loading it raises (unreadable or not JSON), nothing
    is raised by the cache phase: [raw_data] is [None], as with no cache
    file, and the endpoint has the outcome of the fetch path, with its one
    call of the scraping function. *)
Lemma undecodable_fresh_cache_degrades_to_fetch
    (s : scraper) (w : world) (f : file) (e : exn) :
  latest_snapshot s w = Some f ->
  age w f < timedelta_days 1 ->
  content f = inl e ->
  Main.read_cache s w = (inr PNone, w)
  /\ Main.read_endpoint extract s w = fetch_path extract s w
  /\ trace (snd (Main.read_endpoint extract s w))
     = (trace w ++ [EvExtract s true])%list.
Proof.
  intros Hl Hage Hc.
  assert (Hmiss : Main.read_cache s w = (inr PNone, w)).
  { rewrite (read_cache_fresh s w f Hl Hage).
    apply (load_cache_undecodable w f e Hc). }
  split; [exact Hmiss|].
  rewrite (read_endpoint_miss s w Hmiss).
  split; [reflexivity|apply fetch_path_trace].
Qed.

(** C10. Every record of a response was built from a mapping of the raw
    data: the arguments given to the model keep only declared keys, the
    record has exactly the declared fields, in their order, and a declared
    field that the raw mapping lacks is present with the value [None]. *)
Theorem C10_records_have_exactly_the_declared_fields
    (s : scraper) (w w' : world) (resp : Main.response) :
  Main.read_endpoint extract s w = (inr resp, w') ->
  exists raw_items : list pyval,
    Forall2
      (fun item r =>
         exists kvs cleaned_item,
           item = PDict kvs
           /\ Main.clean_item s item = inr cleaned_item
           /\ (forall k, In k (map fst cleaned_item) ->
                         In k (Main.model_fields s))
           /\ Main.construct s cleaned_item = inr r
           /\ map fst r = Main.model_fields s
           /\ (forall f, In f (Main.model_fields s) ->
                         dict_get f kvs = None -> In (f, None) r))
      raw_items (Main.data resp).
Proof.
  intros H.
  destruct (read_endpoint_response s w w' resp H) as [raw Hraw].
  unfold Main.convert in Hraw.
  destruct (iter raw) as [e|its]; [discriminate|].
  exists its.
  apply convert_items_spec in Hraw.
  induction Hraw as [|item r its' recs' Hr _ IH]; constructor.
  - apply convert_item_spec, Hr.
  - exact IH.
Qed.

End ReadPath.

(** *** The properties on sample worlds *)

(** No snapshot and a fetch that succeeds: the records fetched are
    returned, marked as fresh. *)
Example read_without_cache_fetches :
  fst (Main.get_mygap_data Examples.working_extract
         (initial_world (Examples.hours 1) []))
  = inr (loaded extract_mygap_tbm_data "fresh" [Examples.tbm_record]
                (Examples.hours 1)).
Proof. reflexivity. Qed.

(** A snapshot of 30 hours is not served even when the fetch works: the
    records come from the scraping function. *)
Example read_with_stale_cache_fetches :
  extract_calls
    (trace (snd (Main.get_mygap_am_data Examples.working_extract
                   Examples.am_stale_world)))
  = [extract_mygap_am_data].
Proof. reflexivity. Qed.

Lemma C1_witness :
  exists detail w',
    Main.read_endpoint Examples.failing_extract extract_mygap_am_data
                       Examples.am_stale_world =
      (inl (HTTPException 500 detail), w')
    /\ trace w' = (trace Examples.am_stale_world
                   ++ [EvExtract extract_mygap_am_data true])%list.
Proof.
  apply (C1_stale_or_absent_cache_and_failed_fetch_raise_500
           Examples.failing_extract extract_mygap_am_data
           Examples.am_stale_world).
  - intros f Hf. vm_compute in Hf. injection Hf as <-.
    vm_compute. discriminate.
  - reflexivity.
Defined.

Lemma C2_witness :
  Main.read_endpoint Examples.failing_extract extract_mygap_pf_data
                     Examples.pf_fresh_world =
    (inr (loaded extract_mygap_pf_data "cache" [Examples.tbm_record]
                 (Examples.hours 2)),
     Examples.pf_fresh_world)
  /\ extract_calls
       (trace (snd (Main.read_endpoint Examples.failing_extract
                      extract_mygap_pf_data Examples.pf_fresh_world)))
     = extract_calls (trace Examples.pf_fresh_world).
Proof.
  apply (C2_fresh_cache_is_served_without_fetch
           Examples.failing_extract extract_mygap_pf_data
           Examples.pf_fresh_world Examples.pf_file
           (PDict [("data", PList [Examples.raw_item])])
           [Examples.raw_item] [Examples.tbm_record]).
  - reflexivity.
  - vm_compute. reflexivity.
  - reflexivity.
  - reflexivity.
  - reflexivity.
Defined.

(** A fresh cache file that is not JSON is passed over, and so are a
    fresh file holding [null] and one holding a number. *)
Example garbled_cache_degrades_to_fetch :
  Main.read_cache extract_mygap_tbm_data Examples.garbled_world
    = (inr PNone, Examples.garbled_world)
  /\ Main.read_endpoint Examples.working_extract extract_mygap_tbm_data
                        Examples.garbled_world
     = fetch_path Examples.working_extract extract_mygap_tbm_data
                  Examples.garbled_world
  /\ trace (snd (Main.read_endpoint Examples.working_extract
                   extract_mygap_tbm_data Examples.garbled_world))
     = (trace Examples.garbled_world
        ++ [EvExtract extract_mygap_tbm_data true])%list.
Proof.
  apply (undecodable_fresh_cache_degrades_to_fetch
           Examples.working_extract extract_mygap_tbm_data
           Examples.garbled_world Examples.garbled_file
           (PyExc (OtherException "JSONDecodeError")
                  "Expecting value: line 1 column 1 (char 0)")).
  - reflexivity.
  - vm_compute. reflexivity.
  - reflexivity.
Qed.

Example null_cache_degrades_to_fetch :
  Main.read_endpoint Examples.working_extract extract_mygap_tbm_data
    (initial_world (Examples.hours 1)
       [mkFile "mygap_data_tbm_20240101_000000.json" 0 (inr PNone)])
  = fetch_path Examples.working_extract extract_mygap_tbm_data
      (initial_world (Examples.hours 1)
         [mkFile "mygap_data_tbm_20240101_000000.json" 0 (inr PNone)]).
Proof. reflexivity. Qed.

Example number_cache_degrades_to_fetch :
  Main.read_endpoint Examples.working_extract extract_mygap_tbm_data
    (initial_world (Examples.hours 1)
       [mkFile "mygap_data_tbm_20240101_000000.json" 0 (inr (PInt 5))])
  = fetch_path Examples.working_extract extract_mygap_tbm_data
      (initial_world (Examples.hours 1)
         [mkFile "mygap_data_tbm_20240101_000000.json" 0 (inr (PInt 5))]).
Proof. reflexivity. Qed.

(** C8.  The code does not treat a fresh cache file of unexpected
    structure as a miss.  With the object [{"foo": "bar"}] in the newest
    file, one hour old, the last branch of the loader takes the object as
    [raw_data]; no scraping function is called, the conversion loop raises
    and the caller gets a status 500.  With no cache file the same request
    succeeds through the fetch path, as it does when the file cannot be
    decoded. *)
Theorem C8_fresh_cache_of_unexpected_structure_is_not_a_miss :
  latest_snapshot extract_mygap_tbm_data Examples.odd_world
    = Some Examples.odd_file
  /\ age Examples.odd_world Examples.odd_file < timedelta_days 1
  /\ content Examples.odd_file = inr (PDict [("foo", PStr "bar")])
  /\ snapshot_records (PDict [("foo", PStr "bar")]) = None
  /\ Main.read_endpoint Examples.working_extract extract_mygap_tbm_data
                        Examples.odd_world
     = (inl (HTTPException 500
               "Internal server error: 'str' object has no attribute 'items'"),
        Examples.odd_world)
  /\ Main.read_endpoint Examples.working_extract extract_mygap_tbm_data
                        Examples.odd_world
     <> fetch_path Examples.working_extract extract_mygap_tbm_data
                   Examples.odd_world
  /\ fst (Main.read_endpoint Examples.working_extract extract_mygap_tbm_data
            (initial_world (Examples.hours 1) []))
     = inr (loaded extract_mygap_tbm_data "fresh" [Examples.tbm_record]
                   (Examples.hours 1)).
Proof.
  repeat split; try reflexivity.
  vm_compute. discriminate.
Qed.

Lemma C10_witness :
  exists raw_items : list pyval,
    Forall2
      (fun item r =>
         exists kvs cleaned_item,
           item = PDict kvs
           /\ Main.clean_item extract_mygap_pf_data item = inr cleaned_item
           /\ (forall k, In k (map fst cleaned_item) ->
                         In k (Main.model_fields extract_mygap_pf_data))
           /\ Main.construct extract_mygap_pf_data cleaned_item = inr r
           /\ map fst r = Main.model_fields extract_mygap_pf_data
           /\ (forall f, In f (Main.model_fields extract_mygap_pf_data) ->
                         dict_get f kvs = None -> In (f, None) r))
      raw_items
      (Main.data (loaded extract_mygap_pf_data "cache" [Examples.tbm_record]
                         (Examples.hours 2))).
Proof.
  apply (C10_records_have_exactly_the_declared_fields
           Examples.failing_extract extract_mygap_pf_data
           Examples.pf_fresh_world Examples.pf_fresh_world).
  reflexivity.
Defined.

(* ================================================================= *)
(** ** The batch *)

Section Batch.

Variable extract : scraper -> bool -> env -> (exn + pyval) * env.

(** A scraping job never raises: it reports the failure of its function. *)
Lemma run_scraping_job_total (scraper_name : string) (f : scraper)
    (w : world) :
  Scheduler.run_scraping_job extract scraper_name f w
  = (inr (job_success extract f w), after_job extract f w).
Proof.
  unfold Scheduler.run_scraping_job, job_success, after_job,
    try_except, bind, datetime_now, gets, call_extract.
  cbn [w_env record_event].
  destruct (extract f true (w_env w)) as [[e|data] e']; cbn [fst snd].
  - reflexivity.
  - destruct (is_none data); reflexivity.
Qed.

(** The loop of [run_all_scrapers] over any list of sources: it runs to
    the end, calls each function in turn and pauses after each call. *)
Lemma batch_loop (l : list (string * scraper)) (acc : list (string * bool))
    (w : world) :
  exists bs w',
    for_each l
      (fun '(scraper_name, scraper_func) results =>
         success <- Scheduler.run_scraping_job extract scraper_name scraper_func ;;
         let results := dict_set scraper_name success results in
         sleep 2 ;;;
         ret results)
      acc w
    = (inr (assign_all (map fst l) bs acc), w')
    /\ List.length bs = List.length l
    /\ trace w' = (trace w ++ batch_events l)%list
    /\ forall latency : scraper -> Z,
         (forall f b e, clock (snd (extract f b e)) = clock e + latency f) ->
         clock (w_env w')
         = clock (w_env w) + total_latency latency l
           + Z.of_nat (List.length l) * seconds 2.
Proof.
  revert acc w. induction l as [|[n f] l IH]; intros acc w.
  - exists [], w. cbn. rewrite app_nil_r. repeat split.
    intros _ _. lia.
  - cbn [for_each]. unfold bind at 1. unfold bind at 1.
    rewrite run_scraping_job_total.
    unfold bind at 1. unfold sleep at 1, modify at 1, ret at 1.
    destruct (IH (dict_set n (job_success extract f w) acc)
                 (after_sleep 2 (after_job extract f w)))
      as [bs [w' [Hrun [Hlen [Htr Hclock]]]]].
    exists (job_success extract f w :: bs), w'.
    split; [exact Hrun|]. split; [cbn; f_equal; exact Hlen|].
    split.
    + rewrite Htr. cbn. rewrite <- !app_assoc. reflexivity.
    + intros latency Hlat. rewrite (Hclock latency Hlat).
      change (total_latency latency ((n, f) :: l))
        with (latency f + total_latency latency l).
      cbn [after_sleep after_job w_env set_env set_clock record_event clock
           List.length].
      rewrite Hlat, Nat2Z.inj_succ. unfold seconds. lia.
Qed.

(** C3. Whatever the scraping functions do (return records, return
    [None], raise), a batch completes, records one result for each of the
    five registered sources, and calls the five functions one after the
    other in registry order, each followed by a pause. *)
Theorem C3_batch_runs_every_source_once_in_registry_order (w : world) :
  exists summary w',
    Scheduler.run_all_scrapers extract w = (inr summary, w')
    /\ map fst (Scheduler.results summary)
       = ["TBM"; "PF"; "AM"; "Organic"; "Tanaman"]
    /\ trace w'
       = (trace w ++
          [ EvExtract extract_mygap_tbm_data true; EvSleep 2;
            EvExtract extract_mygap_pf_data true; EvSleep 2;
            EvExtract extract_mygap_am_data true; EvSleep 2;
            EvExtract extract_mygap_organic_data true; EvSleep 2;
            EvExtract extract_mygap_tanaman_data true; EvSleep 2 ])%list
    /\ extract_calls (trace w')
       = (extract_calls (trace w) ++ map snd Scheduler.scraping_functions)%list.
Proof.
  destruct (batch_loop Scheduler.scraping_functions [] w)
    as [bs [w' [Hrun [Hlen [Htr _]]]]].
  unfold Scheduler.run_all_scrapers.
  unfold bind at 1. unfold datetime_now at 1, gets at 1.
  unfold bind at 1.
  match goal with
  | |- context [for_each ?l ?body ?acc ?w0] =>
      replace (for_each l body acc w0)
        with (@inr exn _ (assign_all (map fst Scheduler.scraping_functions)
                                     bs []), w')
        by (symmetry; exact Hrun)
  end.
  unfold bind, datetime_now, gets, ret.
  eexists. exists w'. split; [reflexivity|].
  split.
  - cbn [Scheduler.results].
    do 5 (destruct bs as [|? bs]; [discriminate|]).
    destruct bs; [|discriminate]. reflexivity.
  - split; [exact Htr|].
    rewrite Htr. unfold extract_calls. rewrite flat_map_app. reflexivity.
Qed.

(** C6, as the code has it.  When each call of a scraping function [f]
    takes the time [latency f], the duration of a batch is the sum of the
    five latencies plus five pauses of two seconds: a pause follows every
    source, the last one included. *)
Theorem C6_batch_pauses_after_every_source
    (latency : scraper -> Z) (w : world) :
  (forall f b e, clock (snd (extract f b e)) = clock e + latency f) ->
  exists summary w',
    Scheduler.run_all_scrapers extract w = (inr summary, w')
    /\ Scheduler.total_duration summary
       = total_latency latency Scheduler.scraping_functions + 5 * seconds 2
    /\ sleeps (trace w') = (sleeps (trace w) ++ [2; 2; 2; 2; 2])%list.
Proof.
  intros Hlat.
  destruct (batch_loop Scheduler.scraping_functions [] w)
    as [bs [w' [Hrun [Hlen [Htr Hclock]]]]].
  unfold Scheduler.run_all_scrapers.
  unfold bind at 1. unfold datetime_now at 1, gets at 1.
  unfold bind at 1.
  match goal with
  | |- context [for_each ?l ?body ?acc ?w0] =>
      replace (for_each l body acc w0)
        with (@inr exn _ (assign_all (map fst Scheduler.scraping_functions)
                                     bs []), w')
        by (symmetry; exact Hrun)
  end.
  unfold bind, datetime_now, gets, ret.
  eexists. exists w'. split; [reflexivity|].
  split.
  - cbn [Scheduler.total_duration]. rewrite (Hclock latency Hlat).
    cbn [List.length Scheduler.scraping_functions]. unfold seconds. lia.
  - rewrite Htr. unfold sleeps. rewrite flat_map_app. reflexivity.
Qed.

End Batch.


Lemma C6_witness :
  exists summary w',
    Scheduler.run_all_scrapers Examples.slow_extract (initial_world 0 [])
      = (inr summary, w')
    /\ Scheduler.total_duration summary
       = total_latency (fun _ => seconds 3) Scheduler.scraping_functions
         + 5 * seconds 2
    /\ sleeps (trace w')
       = (sleeps (trace (initial_world 0 [])) ++ [2; 2; 2; 2; 2])%list.
Proof.
  apply (C6_batch_pauses_after_every_source Examples.slow_extract
           (fun _ => seconds 3) (initial_world 0 [])).
  intros f b e. reflexivity.
Defined.

(** A batch over five sources that each take three seconds lasts 25
    seconds, not the 23 that four pauses would give. *)
Lemma batch_of_three_second_sources_lasts_25_seconds :
  option_map Scheduler.total_duration
    (match fst (Scheduler.run_all_scrapers Examples.slow_extract
                  (initial_world 0 [])) with
     | inr summary => Some summary
     | inl _ => None
     end)
  = Some (seconds 25).
Proof. reflexivity. Qed.

(** A batch in which the third source fails, either way, reports the
    other four as successful and goes on to the end. *)
Example batch_with_am_returning_none :
  Examples.summary_of
    (Scheduler.run_all_scrapers Examples.am_down_extract (initial_world 0 []))
  = Some (["TBM"; "PF"; "Organic"; "Tanaman"], ["AM"]).
Proof. reflexivity. Qed.

Example batch_with_am_raising :
  Examples.summary_of
    (Scheduler.run_all_scrapers Examples.am_raising_extract
       (initial_world 0 []))
  = Some (["TBM"; "PF"; "Organic"; "Tanaman"], ["AM"]).
Proof. reflexivity. Qed.

(* ================================================================= *)
(** ** The scheduler endpoints *)

Section Endpoints.

Variable extract : scraper -> bool -> env -> (exn + pyval) * env.
Variable strftime : Z -> string.

(** The function of scheduler.py returns the three entries of the status:
    the flag, the formatted next run time or [None], the five names. *)
Lemma scheduler_get_scheduler_status_total (w : world) :
  Scheduler.get_scheduler_status strftime w
  = (inr (Scheduler.mkStatus (running w)
            (option_map strftime (Scheduler.next_run_datetime w))
            ["TBM"; "PF"; "AM"; "Organic"; "Tanaman"]),
     w).
Proof.
  unfold Scheduler.get_scheduler_status, Scheduler.get_next_run_time,
    Scheduler.next_run_datetime, Schedule.get_jobs, bind, gets.
  destruct (jobs w); reflexivity.
Qed.

(** C4, as the code has it.  In main.py the name [get_scheduler_status]
    denotes the endpoint itself when the endpoint runs, so the call in its
    body yields a coroutine object; subscripting it raises [TypeError], and
    the endpoint answers every request with status 500. *)
Theorem C4_status_endpoint_always_raises_500 (w : world) :
  Main.get_scheduler_status strftime w
  = (inl (HTTPException 500
            "Internal server error: 'coroutine' object is not subscriptable"),
     w).
Proof. reflexivity. Qed.

(** C7. A name outside the registry is rejected by the single-source
    endpoint with status 400; the world is untouched, so no thread is
    started and no scraping function is called.  The scheduler's own
    [run_single_scraper] also refuses such a name without calling
    anything. *)
Theorem C7_unknown_source_is_rejected_before_dispatch
    (scraper_name : string) (w : world) :
  ~ In scraper_name ["TBM"; "PF"; "AM"; "Organic"; "Tanaman"] ->
  Main.run_single_scraper_endpoint scraper_name w
  = (inl (HTTPException 400
            "Invalid scraper name. Must be one of: ['TBM', 'PF', 'AM', 'Organic', 'Tanaman']"),
     w)
  /\ thread_starts
       (trace (snd (Main.run_single_scraper_endpoint scraper_name w)))
     = thread_starts (trace w)
  /\ extract_calls
       (trace (snd (Main.run_single_scraper_endpoint scraper_name w)))
     = extract_calls (trace w)
  /\ Scheduler.run_single_scraper extract scraper_name w = (inr false, w).
Proof.
  intros Hnot.
  assert (Hin : str_in scraper_name ["TBM"; "PF"; "AM"; "Organic"; "Tanaman"]
                = false).
  { destruct (str_in scraper_name _) eqn:E; [|reflexivity].
    apply str_in_In in E. contradiction. }
  assert (Hep : Main.run_single_scraper_endpoint scraper_name w
                = (inl (HTTPException 400
                          "Invalid scraper name. Must be one of: ['TBM', 'PF', 'AM', 'Organic', 'Tanaman']"),
                   w)).
  { unfold Main.run_single_scraper_endpoint, try_except, bind.
    rewrite Hin. reflexivity. }
  rewrite Hep. repeat split.
  unfold Scheduler.run_single_scraper, Scheduler.scraping_functions.
  cbn [find fst].
  repeat match goal with
         | |- context [String.eqb scraper_name ?n] =>
             destruct (String.eqb_spec scraper_name n) as [->|_];
             [exfalso; apply Hnot; cbn; tauto|]
         end.
  reflexivity.
Qed.

End Endpoints.

Lemma C7_witness :
  Main.run_single_scraper_endpoint "tbm" (initial_world 0 [])
  = (inl (HTTPException 400
            "Invalid scraper name. Must be one of: ['TBM', 'PF', 'AM', 'Organic', 'Tanaman']"),
     initial_world 0 [])
  /\ thread_starts
       (trace (snd (Main.run_single_scraper_endpoint "tbm"
                      (initial_world 0 []))))
     = thread_starts (trace (initial_world 0 []))
  /\ extract_calls
       (trace (snd (Main.run_single_scraper_endpoint "tbm"
                      (initial_world 0 []))))
     = extract_calls (trace (initial_world 0 []))
  /\ Scheduler.run_single_scraper Examples.working_extract "tbm"
       (initial_world 0 [])
     = (inr false, initial_world 0 []).
Proof.
  apply (C7_unknown_source_is_rejected_before_dispatch
           Examples.working_extract "tbm" (initial_world 0 [])).
  cbn. intros H.
  repeat (destruct H as [H|H]; [discriminate H|]). exact H.
Defined.

(* ================================================================= *)
(** ** Starting and stopping the scheduler *)

(** *** Times of day *)

Lemma digit_range (c : ascii) (d : Z) :
  Schedule.digit c = Some d -> 0 <= d <= 9.
Proof.
  unfold Schedule.digit.
  destruct (Z.leb_spec 48 (Z.of_nat (nat_of_ascii c)));
    destruct (Z.leb_spec (Z.of_nat (nat_of_ascii c)) 57);
    cbn [andb]; intros Heq; try discriminate Heq;
    injection Heq as Heq; lia.
Qed.

Lemma two_digits_range (k : Z) (a b : ascii) (x : Z) :
  Schedule.two_digits k a b = Some x -> 0 <= x <= 10 * k + 9.
Proof.
  unfold Schedule.two_digits.
  destruct (Schedule.digit a) as [da|] eqn:Ha; [|discriminate].
  destruct (Schedule.digit b) as [db|] eqn:Hb; [|discriminate].
  apply digit_range in Ha. apply digit_range in Hb.
  destruct (Z.leb_spec da k); intros Heq; [|discriminate Heq].
  assert (E : 10 * da + db = x) by congruence. lia.
Qed.

Lemma parse_seconds_range (rest : string) (s : Z) :
  Schedule.parse_seconds rest = Some s -> 0 <= s <= 59.
Proof.
  unfold Schedule.parse_seconds.
  destruct (Schedule.at_end rest).
  - intros Heq. assert (E : 0 = s) by congruence. lia.
  - destruct rest as [|c [|s1 [|s2 rest']]]; try discriminate.
    destruct (Ascii.eqb c ":" && Schedule.at_end rest'); [|discriminate].
    intros Heq. apply two_digits_range in Heq. lia.
Qed.

(** An accepted time string denotes a time of day. *)
Lemma parse_at_time_range (time_str : string) (t : Z) :
  Schedule.parse_at_time time_str = inr t -> 0 <= t < Schedule.day.
Proof.
  unfold Schedule.parse_at_time.
  destruct time_str as [|h1 [|h2 [|c [|m1 [|m2 rest]]]]]; try discriminate.
  destruct (Ascii.eqb c ":"); [|discriminate].
  destruct (Schedule.two_digits 2 h1 h2) as [h|] eqn:Hh; [|discriminate].
  destruct (Schedule.two_digits 5 m1 m2) as [m|] eqn:Hm; [|discriminate].
  destruct (Schedule.parse_seconds rest) as [s|] eqn:Hs; [|discriminate].
  apply two_digits_range in Hh, Hm. apply parse_seconds_range in Hs.
  destruct (Z.leb_spec h 23); [|discriminate].
  intros Heq.
  assert (E : seconds (h * 3600 + m * 60 + s) = t) by congruence.
  unfold Schedule.day, timedelta_days, seconds in *. lia.
Qed.

(** The first run of a new daily job is the next occurrence of its time
    of day: after [now], at most one day later. *)
Lemma first_daily_run (id : nat) (now t x : Z) :
  0 <= t < Schedule.day ->
  let next := Schedule.schedule_next_run now
                (mkJob id Schedule.day (Some t) None x) in
  now < next <= now + Schedule.day /\ next mod Schedule.day = t.
Proof.
  intros Ht. unfold Schedule.schedule_next_run.
  cbn [period at_time last_run andb].
  rewrite Z.eqb_refl. cbn [andb].
  assert (Hd : 0 < Schedule.day) by reflexivity.
  generalize dependent Schedule.day. intros d Ht Hd.
  replace (now + d) with (now + 1 * d) by lia.
  rewrite Z.div_add by lia.
  pose proof (Z.div_mod now d ltac:(lia)) as Hdm.
  pose proof (Z.mod_pos_bound now d Hd) as Hm.
  destruct (Z.ltb_spec (now mod d) t).
  - split; [nia|].
    replace ((now / d + 1) * d + t - d) with (t + (now / d) * d) by lia.
    rewrite Z.mod_add by lia. apply Z.mod_small. lia.
  - split; [nia|].
    replace ((now / d + 1) * d + t) with (t + (now / d + 1) * d) by lia.
    rewrite Z.mod_add by lia. apply Z.mod_small. lia.
Qed.

Section Lifecycle.

Variable extract : scraper -> bool -> env -> (exn + pyval) * env.
Variable strftime : Z -> string.

(** *** The three operations, step by step *)

Lemma stop_scheduler_started (w : world) (ph : thread_phase) :
  scheduler_thread w = Some ph ->
  Scheduler.stop_scheduler w = (inr tt, set_jobs [] (set_running false w)).
Proof.
  unfold Scheduler.stop_scheduler, Schedule.clear, bind, modify, gets.
  cbn [set_running scheduler_thread]. intros ->. reflexivity.
Qed.

Lemma thread_step_sees_stop (w : world) :
  scheduler_thread w = Some Looping ->
  running w = false ->
  Scheduler.thread_step extract w
  = (inr tt, set_scheduler_thread (Some Finished) w).
Proof.
  unfold Scheduler.thread_step, bind, gets, modify.
  intros -> ->. reflexivity.
Qed.

Lemma thread_step_finished (w : world) :
  scheduler_thread w = Some Finished ->
  Scheduler.thread_step extract w = (inr tt, w).
Proof.
  unfold Scheduler.thread_step, bind, gets. intros ->. reflexivity.
Qed.

(** With a live thread, starting changes nothing. *)
Lemma start_while_alive (time_str : string) (w : world) (ph : thread_phase) :
  scheduler_thread w = Some ph ->
  is_alive ph = true ->
  Scheduler.start_background_scheduler time_str w = (inr tt, w).
Proof.
  unfold Scheduler.start_background_scheduler, bind, gets.
  intros -> ->. reflexivity.
Qed.

(** With the thread returned, starting registers the daily job. *)
Lemma start_after_exit (time_str : string) (t : Z) (w : world) :
  scheduler_thread w = Some Finished ->
  Schedule.parse_at_time time_str = inr t ->
  exists w',
    Scheduler.start_background_scheduler time_str w = (inr tt, w')
    /\ scheduler_thread w' = Some Spawned
    /\ jobs w' =
       (jobs w ++
        [mkJob (next_job_id w) Schedule.day (Some t) None
           (Schedule.schedule_next_run (clock (w_env w))
              (mkJob (next_job_id w) Schedule.day (Some t) None 0))])%list.
Proof.
  intros Hth Hparse.
  unfold Scheduler.start_background_scheduler,
    Scheduler.schedule_daily_scraping, Schedule.every_day_at_do,
    bind, gets, modify, lift, datetime_now.
  rewrite Hth. cbn [is_alive]. rewrite Hparse. unfold gets.
  eexists. split; [reflexivity|]. split; reflexivity.
Qed.

(** C5, as the code has it.  After [stop_scheduler], once the thread has
    tested the cleared flag and returned, a start with an accepted time
    string registers one job, and the next run time reported is the next
    occurrence of that time of day: later than the start, by at most one
    day. *)
Theorem C5_start_after_the_thread_has_returned
    (time_str : string) (t now : Z) (w : world) :
  Schedule.parse_at_time time_str = inr t ->
  scheduler_thread w = Some Looping \/ scheduler_thread w = Some Finished ->
  let w1 := snd (Scheduler.stop_scheduler w) in
  let w2 := snd (Scheduler.thread_step extract w1) in
  let w3 := set_clock now w2 in
  let w4 := snd (Scheduler.start_background_scheduler time_str w3) in
  exists next,
    Scheduler.get_next_run_time strftime w4 = (inr (Some (strftime next)), w4)
    /\ Scheduler.next_run_datetime w4 = Some next
    /\ now < next <= now + Schedule.day
    /\ next mod Schedule.day = t.
Proof.
  intros Hparse Hth w1 w2 w3 w4.
  assert (Hw1 : w1 = set_jobs [] (set_running false w)).
  { subst w1. destruct Hth as [Hth|Hth];
      rewrite (stop_scheduler_started w _ Hth); reflexivity. }
  assert (Hw2 : scheduler_thread w2 = Some Finished /\ jobs w2 = []).
  { subst w2. rewrite Hw1. destruct Hth as [Hth|Hth].
    - rewrite thread_step_sees_stop; [split; reflexivity|exact Hth|reflexivity].
    - rewrite thread_step_finished; [split; [exact Hth|reflexivity]|exact Hth]. }
  destruct Hw2 as [Hph Hjobs].
  destruct (start_after_exit time_str t w3) as [w' [Hstart [_ Hj]]];
    [exact Hph|exact Hparse|].
  assert (Hw4 : w4 = w') by (subst w4; rewrite Hstart; reflexivity).
  change (jobs w3) with (jobs w2) in Hj. rewrite Hjobs in Hj.
  cbn [app] in Hj. change (clock (w_env w3)) with now in Hj.
  rewrite Hw4.
  eexists. split.
  - unfold Scheduler.get_next_run_time, Schedule.get_jobs, bind, gets.
    rewrite Hj. reflexivity.
  - split.
    + unfold Scheduler.next_run_datetime. rewrite Hj. reflexivity.
    + cbn [Schedule.min_next_run fold_left next_run].
      apply first_daily_run, (parse_at_time_range time_str), Hparse.
Qed.

End Lifecycle.

(** Started at 09:00 for ["00:00"], the scheduler reports the coming
    midnight. *)
Example start_at_nine_reports_next_midnight :
  Scheduler.next_run_datetime
    (snd (Main.startup_event (initial_world (Examples.hours 9) [])))
  = Some (Examples.hours 24).
Proof. reflexivity. Qed.

(** Time strings that the library refuses leave the scheduler unstarted. *)
Example start_with_bad_hour_raises :
  Scheduler.start_background_scheduler "25:00"
    (initial_world (Examples.hours 9) [])
  = (inl (Schedule.ScheduleValueError
            "Invalid number of hours ({} is not between 0 and 23)"),
     initial_world (Examples.hours 9) []).
Proof. reflexivity. Qed.

(** A final newline is accepted, as the pattern of the library allows. *)
Example start_accepts_a_final_newline :
  Scheduler.next_run_datetime
    (snd (Scheduler.start_background_scheduler
            (String "0" (String "2" (String ":" (String "3" (String "0"
               (String "010" EmptyString))))))
            (initial_world (Examples.hours 9) [])))
  = Some (Examples.hours 24 + seconds 9000).
Proof. reflexivity. Qed.

Lemma C5_witness :
  let w := mkWorld (mkEnv (Examples.hours 9) []) [] true (Some Looping) [] 0 in
  let w1 := snd (Scheduler.stop_scheduler w) in
  let w2 := snd (Scheduler.thread_step Examples.failing_extract w1) in
  let w3 := set_clock (Examples.hours 10) w2 in
  let w4 := snd (Scheduler.start_background_scheduler "02:30" w3) in
  exists next,
    Scheduler.get_next_run_time Examples.render w4
      = (inr (Some (Examples.render next)), w4)
    /\ Scheduler.next_run_datetime w4 = Some next
    /\ Examples.hours 10 < next <= Examples.hours 10 + Schedule.day
    /\ next mod Schedule.day = seconds 9000.
Proof.
  apply (C5_start_after_the_thread_has_returned
           Examples.failing_extract Examples.render
           "02:30" (seconds 9000) (Examples.hours 10)).
  - reflexivity.
  - left. reflexivity.
Defined.

(** C5 as stated fails when the start follows the stop before the thread
    has tested the flag: the thread is still alive, the start does nothing,
    the jobs stay cleared and no next run time is reported. *)
Lemma C5_counterexample :
  let w0 := initial_world (Examples.hours 9) [] in
  let w1 := snd (Scheduler.start_background_scheduler "00:00" w0) in
  let w2 := snd (Scheduler.thread_step Examples.failing_extract w1) in
  let w3 := snd (Scheduler.stop_scheduler w2) in
  let w4 := set_clock (Examples.hours 9 + seconds 1) w3 in
  let w5 := snd (Scheduler.start_background_scheduler "00:00" w4) in
  Scheduler.next_run_datetime w1 = Some (Examples.hours 24)
  /\ fst (Scheduler.start_background_scheduler "00:00" w4) = inr tt
  /\ Scheduler.get_next_run_time Examples.render w5 = (inr None, w5)
  /\ scheduler_thread w5 = Some Looping
  /\ running w5 = false.
Proof. repeat split. Qed.

(* ================================================================= *)
(** ** Two reads in a row *)

(** *** File names and the glob pattern *)








(** *** The newest file *)




Section TwoReads.

Variable site : scraper -> env -> option (list pyval).
Variable stamp : Z -> string.


End TwoReads.



(* ================================================================= *)
(** ** Further properties of the read endpoints *)

(** *** The newest file *)

Lemma max_by_mtime_from_spec (best : file) (fs : list file) :
  let m := max_by_mtime_from best fs in
  (m = best \/ In m fs)
  /\ mtime best <= mtime m
  /\ forall g, In g fs -> mtime g <= mtime m.
Proof.
  revert best. induction fs as [|f fs IH]; intros best; cbn.
  - repeat split; [left; reflexivity|lia|intros g []].
  - destruct (IH (if mtime best <? mtime f then f else best))
      as [Hin [Hbest Hall]].
    destruct (Z.ltb_spec (mtime best) (mtime f)) as [Hlt|Hge].
    + repeat split.
      * destruct Hin as [->|Hin]; [right; left; reflexivity|right; right; exact Hin].
      * lia.
      * intros g [<-|Hg]; [exact Hbest|apply Hall, Hg].
    + repeat split.
      * destruct Hin as [->|Hin]; [left; reflexivity|right; right; exact Hin].
      * exact Hbest.
      * intros g [<-|Hg]; [lia|apply Hall, Hg].
Qed.

(** *** Prefixes *)

Lemma prefix_get (p s : string) (n : nat) (c : ascii) :
  String.prefix p s = true ->
  String.get n p = Some c ->
  String.get n s = Some c.
Proof.
  revert s n. induction p as [|a p IH]; intros s n Hp Hg.
  - destruct n; discriminate Hg.
  - destruct s as [|b s]; [discriminate Hp|].
    cbn in Hp. destruct (ascii_dec a b) as [<-|_]; [|discriminate Hp].
    destruct n as [|n]; cbn in *; [exact Hg|apply IH; assumption].
Qed.

Lemma glob_match_prefix (pat : string * string) (s : string) :
  glob_match pat s = true -> String.prefix (fst pat) s = true.
Proof.
  unfold glob_match. intros H.
  apply andb_true_iff in H. destruct H as [H _].
  apply andb_true_iff in H. destruct H as [_ H]. exact H.
Qed.

Section MoreReadPath.

Variable extract : scraper -> bool -> env -> (exn + pyval) * env.

(** X1. Whatever goes wrong in a read endpoint (the scraping function
    returns [None] or raises, the data cannot be converted), the exception
    that leaves it is an [HTTPException] of status 500. *)
Theorem X1_read_endpoint_raises_only_status_500
    (s : scraper) (w w' : world) (e : exn) :
  Main.read_endpoint extract s w = (inl e, w') ->
  exists detail, e = HTTPException 500 detail.
Proof.
  unfold Main.read_endpoint, try_except, raise.
  match goal with |- context [bind ?m ?k w] => destruct (bind m k w) as [[e0|r] w0] end.
  - intros H. injection H as <- _. eexists. reflexivity.
  - discriminate.
Qed.

(** X2. A read for a source calls at most one scraping function, the one of
    that source, with [save_to_file=True], and never touches the
    scheduler: flag, thread and jobs stay as they were. *)
Theorem X2_read_endpoint_footprint (s : scraper) (w : world) :
  let w' := snd (Main.read_endpoint extract s w) in
  (trace w' = trace w \/ trace w' = (trace w ++ [EvExtract s true])%list)
  /\ running w' = running w
  /\ scheduler_thread w' = scheduler_thread w
  /\ jobs w' = jobs w.
Proof.
  destruct (read_cache_total s w) as [v Hv].
  destruct (is_none v) eqn:Hn.
  - destruct v; try discriminate.
    rewrite (read_endpoint_miss extract s w Hv).
    cbv zeta. split; [right; apply fetch_path_trace|].
    unfold fetch_path, finish.
    destruct (extract s true (w_env w)) as [[e|raw] e'];
      [repeat split|].
    destruct (is_none raw); [repeat split|].
    destruct (Main.convert s raw); repeat split.
  - rewrite (read_endpoint_hit extract s w v Hv Hn).
    unfold finish. destruct (Main.convert s v); cbn; auto.
Qed.

(** X3. With no file in the directory that matches the pattern of the
    source, whatever other files there are, the cache phase reads nothing
    and the scraping function is called: the endpoint has the outcome of
    the fetch path. *)
Theorem X3_no_cache_file_always_fetches (s : scraper) (w : world) :
  (forall f, In f (files (w_env w)) ->
             glob_match (Main.glob_pattern s) (name f) = false) ->
  Main.read_endpoint extract s w = fetch_path extract s w
  /\ trace (snd (Main.read_endpoint extract s w))
     = (trace w ++ [EvExtract s true])%list.
Proof.
  intros Hnone.
  assert (Hl : latest_snapshot s w = None).
  { unfold latest_snapshot.
    replace (filter _ (files (w_env w))) with (@nil file); [reflexivity|].
    symmetry. induction (files (w_env w)) as [|f fs IH]; [reflexivity|].
    cbn [filter]. rewrite (Hnone f (or_introl eq_refl)).
    apply IH. intros g Hg. apply Hnone. right. exact Hg. }
  rewrite (read_endpoint_absent extract s w Hl).
  split; [reflexivity|apply fetch_path_trace].
Qed.

(** X4. With no usable cache, records that the scraping function returns
    and that convert are answered as fresh data, stamped with the clock as
    the scraping function left it. *)
Theorem X4_successful_refresh_returns_the_fetched_records
    (s : scraper) (w : world) (its : list pyval) (e' : env)
    (recs : list Main.record) :
  (forall f, latest_snapshot s w = Some f -> timedelta_days 1 <= age w f) ->
  extract s true (w_env w) = (inr (PList its), e') ->
  Main.convert_items s its = inr recs ->
  Main.read_endpoint extract s w
  = (inr (loaded s "fresh" recs (clock e')),
     set_env e' (record_event (EvExtract s true) w)).
Proof.
  intros Hstale Hfetch Hconv.
  assert (Hmiss : Main.read_cache s w = (inr PNone, w)).
  { destruct (latest_snapshot s w) as [f|] eqn:Hl.
    - apply (read_cache_stale s w f Hl), Hstale; reflexivity.
    - apply read_cache_absent, Hl. }
  rewrite (read_endpoint_miss extract s w Hmiss).
  unfold fetch_path. rewrite Hfetch. cbn [is_none].
  unfold finish, Main.convert. cbn [iter]. rewrite Hconv. reflexivity.
Qed.

(** X5. Every response of a read endpoint reports success, counts exactly
    the records it carries, and is stamped with the clock at its return. *)
Theorem X5_response_counts_its_records
    (s : scraper) (w w' : world) (resp : Main.response) :
  Main.read_endpoint extract s w = (inr resp, w') ->
  Main.success resp = true
  /\ Main.total_records resp = Z.of_nat (List.length (Main.data resp))
  /\ Main.timestamp resp = clock (w_env w').
Proof.
  intros H.
  assert (Hfin : forall src raw w0,
             finish s src raw w0 = (inr resp, w') ->
             Main.success resp = true
             /\ Main.total_records resp = Z.of_nat (List.length (Main.data resp))
             /\ Main.timestamp resp = clock (w_env w')).
  { unfold finish, loaded. intros src raw w0 Hf.
    destruct (Main.convert s raw) as [e|recs]; [discriminate|].
    injection Hf as <- <-. repeat split. }
  destruct (read_cache_total s w) as [v Hv].
  destruct (is_none v) eqn:Hn.
  - destruct v; try discriminate.
    rewrite (read_endpoint_miss extract s w Hv) in H. unfold fetch_path in H.
    destruct (extract s true (w_env w)) as [[e|raw] e']; [discriminate|].
    destruct (is_none raw); [discriminate|].
    eapply Hfin, H.
  - rewrite (read_endpoint_hit extract s w v Hv Hn) in H.
    eapply Hfin, H.
Qed.

(** X6. A fresh cache file whose records do not convert makes the endpoint
    fail with status 500 and the text of the error; no scraping function is
    called and the world is left as it was, so the same request keeps
    failing until the file is a day old. *)
Theorem X6_fresh_cache_that_does_not_convert_is_not_refreshed
    (s : scraper) (w : world) (f : file) (v : pyval) (its : list pyval)
    (e : exn) :
  latest_snapshot s w = Some f ->
  age w f < timedelta_days 1 ->
  content f = inr v ->
  snapshot_records v = Some its ->
  Main.convert_items s its = inl e ->
  Main.read_endpoint extract s w
  = (inl (HTTPException 500 ("Internal server error: " ++ str e)), w).
Proof.
  intros Hl Hage Hc Hv Hconv.
  rewrite (read_endpoint_hit extract s w (PList its)).
  - unfold finish, Main.convert. cbn [iter]. rewrite Hconv. reflexivity.
  - rewrite (read_cache_fresh s w f Hl Hage).
    apply (load_cache_snapshot w f v its Hc Hv).
  - reflexivity.
Qed.

End MoreReadPath.

(** X7. The cache files of the five sources are kept apart: no file name
    matches the glob patterns of two different read endpoints. *)
Theorem X7_no_file_name_matches_two_sources
    (s1 s2 : scraper) (file_name : string) :
  glob_match (Main.glob_pattern s1) file_name = true ->
  glob_match (Main.glob_pattern s2) file_name = true ->
  s1 = s2.
Proof.
  intros H1 H2.
  apply glob_match_prefix in H1. apply glob_match_prefix in H2.
  destruct s1, s2; try reflexivity; exfalso; cbn [Main.glob_pattern fst] in *;
    first
      [ pose proof (prefix_get _ _ 11%nat _ H1 eq_refl) as E1;
        pose proof (prefix_get _ _ 11%nat _ H2 eq_refl) as E2;
        rewrite E1 in E2; discriminate E2
      | pose proof (prefix_get _ _ 12%nat _ H1 eq_refl) as E1;
        pose proof (prefix_get _ _ 12%nat _ H2 eq_refl) as E2;
        rewrite E1 in E2; discriminate E2 ].
Qed.

(** X8. The file a read endpoint opens is a file of the directory that
    matches the pattern of its source, and no matching file has a later
    modification time. *)
Theorem X8_latest_snapshot_is_a_newest_matching_file
    (s : scraper) (w : world) (f : file) :
  latest_snapshot s w = Some f ->
  In f (files (w_env w))
  /\ glob_match (Main.glob_pattern s) (name f) = true
  /\ forall g, In g (files (w_env w)) ->
               glob_match (Main.glob_pattern s) (name g) = true ->
               mtime g <= mtime f.
Proof.
  unfold latest_snapshot.
  set (P := fun f0 : file => glob_match (Main.glob_pattern s) (name f0)).
  destruct (filter P (files (w_env w))) as [|b fs] eqn:Hfs; [discriminate|].
  cbn [max_by_mtime]. intros H. injection H as <-.
  destruct (max_by_mtime_from_spec b fs) as [Hin [Hb Hall]].
  assert (Hmem : In (max_by_mtime_from b fs) (filter P (files (w_env w)))).
  { rewrite Hfs. destruct Hin as [->|Hin]; [left; reflexivity|right; exact Hin]. }
  apply filter_In in Hmem. destruct Hmem as [Hmem Hmatch].
  split; [exact Hmem|]. split; [exact Hmatch|].
  intros g Hg Hgm.
  assert (Hg' : In g (b :: fs)).
  { rewrite <- Hfs. apply filter_In. split; assumption. }
  destruct Hg' as [<-|Hg']; [exact Hb|apply Hall, Hg'].
Qed.

(** *** Validation of the records *)

Lemma validate_fields_map (fields : list string)
    (kwargs : list (string * pyval)) (r : Main.record) :
  Main.validate_fields fields kwargs = Some r ->
  r = map (fun f => (f, match dict_get f kwargs with
                        | Some (PStr v) => Some v
                        | _ => None
                        end)) fields.
Proof.
  revert r. induction fields as [|f0 fields IH]; intros r H.
  - injection H as <-. reflexivity.
  - cbn [Main.validate_fields] in H.
    destruct (Main.validate_field (dict_get f0 kwargs)) as [v0|] eqn:Hv;
      [|discriminate].
    destruct (Main.validate_fields fields kwargs) as [r'|]; [|discriminate].
    injection H as <-. cbn [map]. rewrite <- (IH r' eq_refl). f_equal. f_equal.
    unfold Main.validate_field in Hv.
    destruct (dict_get f0 kwargs) as [[| | | | | |]|];
      try discriminate; injection Hv as <-; reflexivity.
Qed.

Lemma validate_fields_accepts (fields : list string)
    (kwargs : list (string * pyval)) :
  (exists r, Main.validate_fields fields kwargs = Some r)
  <-> forall f, In f fields ->
        Main.validate_field (dict_get f kwargs) <> None.
Proof.
  induction fields as [|f0 fields IH]; cbn [Main.validate_fields].
  - split; [intros _ f []|intros _; eexists; reflexivity].
  - split.
    + intros [r H] f [<-|Hin].
      * destruct (Main.validate_field (dict_get f0 kwargs));
          [discriminate|discriminate H].
      * apply IH; [|exact Hin].
        destruct (Main.validate_field (dict_get f0 kwargs)); [|discriminate H].
        destruct (Main.validate_fields fields kwargs) as [r'|];
          [exists r'; reflexivity|discriminate H].
    + intros Hall.
      destruct (Main.validate_field (dict_get f0 kwargs)) as [v|] eqn:Hv.
      * destruct (proj2 IH) as [r' Hr'].
        { intros f Hin. apply Hall. right. exact Hin. }
        rewrite Hr'. eexists. reflexivity.
      * exfalso. apply (Hall f0); [left; reflexivity|exact Hv].
Qed.

(** X9. The record built from a raw mapping is a function of the mapping
    and the declared fields alone: each declared field, in order, with the
    text the mapping holds under that key, and [None] when the key is
    missing or holds null.  Keys that the model does not declare have no
    influence. *)
Theorem X9_record_is_determined_by_the_declared_keys
    (s : scraper) (kvs : list (string * pyval)) (r : Main.record) :
  Main.convert_item s (PDict kvs) = inr r ->
  r = map (fun f => (f, match dict_get f kvs with
                        | Some (PStr v) => Some v
                        | _ => None
                        end))
          (Main.model_fields s).
Proof.
  unfold Main.convert_item, Main.clean_item, Main.construct. cbn [items].
  destruct (Main.validate_fields _ _) as [r'|] eqn:Hv; [|discriminate].
  intros H. injection H as <-.
  rewrite (validate_fields_map _ _ _ Hv).
  apply map_ext_in. intros f Hin.
  rewrite dict_get_filter; [reflexivity|apply str_in_In, Hin].
Qed.

(** X10. A raw mapping converts exactly when every declared key it has
    holds a string or null; what it holds under other keys is never
    looked at. *)
Theorem X10_conversion_succeeds_iff_declared_values_are_text
    (s : scraper) (kvs : list (string * pyval)) :
  (exists r, Main.convert_item s (PDict kvs) = inr r)
  <-> forall f, In f (Main.model_fields s) ->
        match dict_get f kvs with
        | None | Some PNone | Some (PStr _) => True
        | Some _ => False
        end.
Proof.
  unfold Main.convert_item, Main.clean_item, Main.construct. cbn [items].
  set (kw := filter _ kvs).
  assert (Hacc : forall f, In f (Main.model_fields s) ->
            (Main.validate_field (dict_get f kw) <> None
             <-> match dict_get f kvs with
                 | None | Some PNone | Some (PStr _) => True
                 | Some _ => False
                 end)).
  { intros f Hin. unfold kw.
    rewrite dict_get_filter by (apply str_in_In, Hin).
    unfold Main.validate_field.
    destruct (dict_get f kvs) as [[| | | | | |]|];
      split; intros H;
      first [exact I | discriminate | (apply H; reflexivity) | destruct H]. }
  split.
  - intros [r H] f Hin. apply (Hacc f Hin).
    destruct (Main.validate_fields (Main.model_fields s) kw) as [r'|] eqn:Hv;
      [|discriminate H].
    apply (proj1 (validate_fields_accepts (Main.model_fields s) kw));
      [exists r'; exact Hv|exact Hin].
  - intros Hall.
    destruct (proj2 (validate_fields_accepts (Main.model_fields s) kw))
      as [r Hr].
    { intros f Hin. apply (Hacc f Hin), Hall, Hin. }
    rewrite Hr. eexists. reflexivity.
Qed.

(** *** The further properties on sample worlds *)

Lemma X1_witness :
  exists detail,
    HTTPException 500
      "Internal server error: 'int' object has no attribute 'items'"
    = HTTPException 500 detail.
Proof.
  apply (X1_read_endpoint_raises_only_status_500
           (fun _ _ e => (inr (PList [PInt 3]), e))
           extract_mygap_tbm_data
           (initial_world 0 []) (record_event
              (EvExtract extract_mygap_tbm_data true) (initial_world 0 []))).
  reflexivity.
Defined.

Lemma X3_witness :
  Main.read_endpoint Examples.failing_extract extract_mygap_am_data
    MoreExamples.mixed_world
  = fetch_path Examples.failing_extract extract_mygap_am_data
      MoreExamples.mixed_world
  /\ trace (snd (Main.read_endpoint Examples.failing_extract
                   extract_mygap_am_data MoreExamples.mixed_world))
     = (trace MoreExamples.mixed_world
        ++ [EvExtract extract_mygap_am_data true])%list.
Proof.
  apply (X3_no_cache_file_always_fetches
           Examples.failing_extract extract_mygap_am_data
           MoreExamples.mixed_world).
  intros f [<-|[<-|[<-|[]]]]; reflexivity.
Defined.

Lemma X4_witness :
  Main.read_endpoint MoreExamples.slow_working_extract extract_mygap_tbm_data
    (initial_world (Examples.hours 1) [])
  = (inr (loaded extract_mygap_tbm_data "fresh" [Examples.tbm_record]
                 (Examples.hours 1 + seconds 3)),
     set_env (mkEnv (Examples.hours 1 + seconds 3) [])
       (record_event (EvExtract extract_mygap_tbm_data true)
          (initial_world (Examples.hours 1) []))).
Proof.
  apply (X4_successful_refresh_returns_the_fetched_records
           MoreExamples.slow_working_extract extract_mygap_tbm_data
           (initial_world (Examples.hours 1) []) [Examples.raw_item]
           (mkEnv (Examples.hours 1 + seconds 3) []) [Examples.tbm_record]).
  - intros f Hf. discriminate Hf.
  - reflexivity.
  - reflexivity.
Defined.

Lemma X5_witness :
  Main.success (loaded extract_mygap_pf_data "cache" [Examples.tbm_record]
                       (Examples.hours 2)) = true
  /\ Main.total_records (loaded extract_mygap_pf_data "cache"
                                [Examples.tbm_record] (Examples.hours 2))
     = Z.of_nat (List.length
                   (Main.data (loaded extract_mygap_pf_data "cache"
                                      [Examples.tbm_record] (Examples.hours 2))))
  /\ Main.timestamp (loaded extract_mygap_pf_data "cache"
                            [Examples.tbm_record] (Examples.hours 2))
     = clock (w_env Examples.pf_fresh_world).
Proof.
  apply (X5_response_counts_its_records
           Examples.failing_extract extract_mygap_pf_data
           Examples.pf_fresh_world Examples.pf_fresh_world).
  reflexivity.
Defined.

Lemma X6_witness :
  Main.read_endpoint Examples.working_extract extract_mygap_tbm_data
    MoreExamples.bad_world
  = (inl (HTTPException 500
            ("Internal server error: " ++
             str (PyExc ValidationError "validation error for TBMRecord"))),
     MoreExamples.bad_world).
Proof.
  apply (X6_fresh_cache_that_does_not_convert_is_not_refreshed
           Examples.working_extract extract_mygap_tbm_data
           MoreExamples.bad_world MoreExamples.bad_file
           (PList [MoreExamples.bad_item]) [MoreExamples.bad_item]).
  - reflexivity.
  - vm_compute. reflexivity.
  - reflexivity.
  - reflexivity.
  - reflexivity.
Defined.

Lemma X7_witness : extract_mygap_tbm_data = extract_mygap_tbm_data.
Proof.
  apply (X7_no_file_name_matches_two_sources
           extract_mygap_tbm_data extract_mygap_tbm_data
           "mygap_data_tbm_20240101_000000.json");
    reflexivity.
Defined.

Lemma X8_witness :
  In MoreExamples.pf_new (files (w_env MoreExamples.mixed_world))
  /\ glob_match (Main.glob_pattern extract_mygap_pf_data)
                (name MoreExamples.pf_new) = true
  /\ forall g, In g (files (w_env MoreExamples.mixed_world)) ->
               glob_match (Main.glob_pattern extract_mygap_pf_data) (name g)
               = true ->
               mtime g <= mtime MoreExamples.pf_new.
Proof.
  apply (X8_latest_snapshot_is_a_newest_matching_file
           extract_mygap_pf_data MoreExamples.mixed_world MoreExamples.pf_new).
  reflexivity.
Defined.

Lemma X9_witness :
  Examples.tbm_record
  = map (fun f => (f, match dict_get f [ ("no_pensijilan", PStr "MYGAP-0001");
                                         ("nama", PStr "Kebun Seri");
                                         ("catatan", PInt 7) ] with
                      | Some (PStr v) => Some v
                      | _ => None
                      end))
        (Main.model_fields extract_mygap_tbm_data).
Proof.
  apply (X9_record_is_determined_by_the_declared_keys extract_mygap_tbm_data).
  reflexivity.
Defined.

(* ================================================================= *)
(** ** The statistics and download endpoints *)

Lemma length_list_ascii_of_string (s : string) :
  List.length (list_ascii_of_string s) = String.length s.
Proof. induction s as [|c s IH]; cbn; [reflexivity|f_equal; exact IH]. Qed.

(** A value that has a length is iterable, over that many items. *)
Lemma iter_length (v : pyval) (n : Z) :
  len v = inr n ->
  exists its, iter v = inr its /\ n = Z.of_nat (List.length its).
Proof.
  destruct v; cbn; try discriminate; intros H; injection H as <-;
    eexists; (split; [reflexivity|]).
  - rewrite length_map, length_list_ascii_of_string. reflexivity.
  - reflexivity.
  - rewrite length_map. reflexivity.
Qed.

Lemma output_field_not_projek (field : string) :
  Main.output_field field <> "projek".
Proof.
  unfold Main.output_field.
  destruct (String.eqb_spec field "projek") as [_|Hne];
    [discriminate|exact Hne].
Qed.

Section StatsAndDownloads.

Variable extract : scraper -> bool -> env -> (exn + pyval) * env.
Variable PF_DATA_FIELDS : list string.
Variable AM_DATA_FIELDS : list string.
Variable isspace : ascii -> bool.
Variable float : Type.
Variable percentage : Z -> Z -> float.
Variable float_zero : float.
Variable strftime : Z -> string.

Lemma count_completed_bounds (field : string) (records : list pyval) (n : Z) :
  Main.count_completed isspace field records = inr n ->
  0 <= n <= Z.of_nat (List.length records).
Proof.
  revert n. induction records as [|r records IH]; intros n H.
  - cbn in H. assert (n = 0) by congruence. subst. cbn. lia.
  - cbn [Main.count_completed] in H.
    destruct (Main.get_default r field (PStr "")) as [e|v]; [discriminate|].
    destruct (Main.py_strip isspace v) as [e|sv]; [discriminate|].
    destruct (Main.count_completed isspace field records) as [e|m];
      [discriminate|].
    specialize (IH m eq_refl).
    assert (n = (if truthy sv then 1 else 0) + m) by congruence. subst n.
    cbn [List.length]. rewrite Nat2Z.inj_succ.
    destruct (truthy sv); lia.
Qed.

(** A [None] under the field in any record stops the count. *)
Lemma count_completed_none (field : string) (records : list pyval)
    (d : list (string * pyval)) :
  In (PDict d) records ->
  dict_get field d = Some PNone ->
  exists e, Main.count_completed isspace field records = inl e.
Proof.
  intros Hin Hnone. induction records as [|r records IH]; [destruct Hin|].
  cbn [Main.count_completed].
  destruct Hin as [->|Hin].
  - cbn [Main.get_default]. rewrite Hnone. cbn. eexists. reflexivity.
  - destruct (Main.get_default r field (PStr "")) as [e|v];
      [eexists; reflexivity|].
    destruct (Main.py_strip isspace v) as [e|sv]; [eexists; reflexivity|].
    destruct (IH Hin) as [e ->]. eexists. reflexivity.
Qed.

Lemma field_stats_loop_spec (raw_data : pyval) (total : Z)
    (fields : list string) (stats : list (Main.FieldStats float)) :
  len raw_data = inr total ->
  (Main.field_stats_loop isspace float percentage float_zero)
      raw_data total fields = inr stats ->
  map (Main.field_name float) stats = map Main.output_field fields
  /\ Forall (fun st => Main.total_count float st = total
                       /\ 0 <= Main.completed_count float st
                            <= Main.total_count float st) stats.
Proof.
  intros Hlen. destruct (iter_length raw_data total Hlen) as [its [Hit Hn]].
  revert stats. induction fields as [|f fields IH]; intros stats H.
  - cbn in H. injection H as <-. split; constructor.
  - cbn [Main.field_stats_loop] in H.
    destruct ((Main.field_stat isspace float percentage float_zero)
        raw_data total f) as [e|st] eqn:Hst; [discriminate|].
    destruct ((Main.field_stats_loop isspace float percentage float_zero)
        raw_data total fields) as [e|sts];
      [discriminate|].
    injection H as <-. destruct (IH sts eq_refl) as [Hnames Hall].
    unfold Main.field_stat in Hst. rewrite Hit in Hst.
    destruct (Main.count_completed isspace (Main.output_field f) its)
      as [e|c] eqn:Hc; [discriminate|].
    injection Hst as <-.
    apply count_completed_bounds in Hc.
    split.
    + cbn. f_equal. exact Hnames.
    + constructor; [|exact Hall]. cbn. split; [reflexivity|lia].
Qed.

Lemma field_stats_loop_fails (raw_data : pyval) (total : Z)
    (fields : list string) (f : string) :
  In f fields ->
  (exists e, (Main.field_stat isspace float percentage float_zero)
      raw_data total f = inl e) ->
  exists e, (Main.field_stats_loop isspace float percentage float_zero)
      raw_data total fields = inl e.
Proof.
  intros Hin [e He]. induction fields as [|f0 fields IH]; [destruct Hin|].
  cbn [Main.field_stats_loop].
  destruct Hin as [->|Hin].
  - rewrite He. eexists. reflexivity.
  - destruct ((Main.field_stat isspace float percentage float_zero)
      raw_data total f0); [eexists; reflexivity|].
    destruct (IH Hin) as [e' ->]. eexists. reflexivity.
Qed.

(** The statistics endpoint, once the scraping function has returned. *)
Lemma get_mygap_stats_unfold (w : world) :
  (Main.get_mygap_stats extract PF_DATA_FIELDS isspace float percentage
     float_zero) w
  = let w1 := record_event (EvExtract extract_mygap_tbm_data false) w in
    let (r, e') := extract extract_mygap_tbm_data false (w_env w) in
    let w2 := set_env e' w1 in
    match r with
    | inl e => (inl (internal_error e), w2)
    | inr raw_data =>
        if is_none raw_data then
          (inl (internal_error
                  (HTTPException 500
                     "Failed to extract data from MyGAP website. The website might be unavailable.")),
           w2)
        else
          match len raw_data with
          | inl e => (inl (internal_error e), w2)
          | inr total =>
              match (Main.field_stats_loop isspace float percentage float_zero)
                  raw_data total PF_DATA_FIELDS with
              | inl e => (inl (internal_error e), w2)
              | inr stats =>
                  (inr (Main.mkStatsResponse float true
                          ("Statistics for " ++ string_of_Z total ++
                           " MyGAP certification records")
                          total (clock e') stats),
                   w2)
              end
          end
    end.
Proof.
  unfold Main.get_mygap_stats, try_except, bind, call_extract, internal_error.
  cbn [w_env record_event].
  destruct (extract extract_mygap_tbm_data false (w_env w)) as [[e|raw] e'];
    [reflexivity|].
  destruct (is_none raw); [reflexivity|].
  unfold ret, lift.
  destruct (len raw) as [e|total]; [reflexivity|].
  destruct (Main.field_stats_loop _ _ _ _ raw total PF_DATA_FIELDS);
    reflexivity.
Qed.

(** X11. A statistics response has one entry per data field of the PF
    scraper, under the output name of the field; each entry counts against
    the total number of records and its completed count lies between 0 and
    that total.  The TBM scraping function was called once, with
    [save_to_file=False]. *)
Theorem X11_statistics_are_per_field_counts_within_the_total
    (w w' : world) (resp : Main.StatsResponse float) :
  (Main.get_mygap_stats extract PF_DATA_FIELDS isspace float percentage
     float_zero) w = (inr resp, w') ->
  map (Main.field_name float) (Main.field_statistics float resp)
  = map Main.output_field PF_DATA_FIELDS
  /\ Forall (fun st =>
               Main.total_count float st
               = Main.stats_total_records float resp
               /\ 0 <= Main.completed_count float st
                    <= Main.total_count float st)
            (Main.field_statistics float resp)
  /\ trace w'
     = (trace w ++ [EvExtract extract_mygap_tbm_data false])%list.
Proof.
  rewrite get_mygap_stats_unfold. cbv zeta.
  destruct (extract extract_mygap_tbm_data false (w_env w)) as [[e|raw] e'];
    [discriminate|].
  destruct (is_none raw); [discriminate|].
  destruct (len raw) as [e|total] eqn:Hlen; [discriminate|].
  destruct ((Main.field_stats_loop isspace float percentage float_zero)
      raw total PF_DATA_FIELDS) as [e|stats] eqn:Hloop;
    [discriminate|].
  intros H. injection H as <- <-.
  destruct (field_stats_loop_spec raw total PF_DATA_FIELDS stats Hlen Hloop)
    as [Hnames Hall].
  cbn. repeat split; assumption.
Qed.

(** X12. The statistics endpoint cannot digest a record that holds [None]
    under one of the data fields, although the record models allow it: the
    request fails with status 500. *)
Theorem X12_statistics_fail_on_a_null_field
    (w : world) (records : list pyval) (d : list (string * pyval))
    (field : string) :
  fst (extract extract_mygap_tbm_data false (w_env w)) = inr (PList records) ->
  In (PDict d) records ->
  In field PF_DATA_FIELDS ->
  dict_get (Main.output_field field) d = Some PNone ->
  exists detail w',
    (Main.get_mygap_stats extract PF_DATA_FIELDS isspace float percentage
     float_zero) w = (inl (HTTPException 500 detail), w').
Proof.
  intros Hfetch Hin Hfield Hnone.
  rewrite get_mygap_stats_unfold. cbv zeta.
  destruct (extract extract_mygap_tbm_data false (w_env w)) as [r e'].
  cbn [fst] in Hfetch. subst r. cbn [is_none len].
  destruct (field_stats_loop_fails (PList records)
              (Z.of_nat (List.length records)) PF_DATA_FIELDS field Hfield)
    as [e He].
  { unfold Main.field_stat. cbn [iter].
    destruct (count_completed_none (Main.output_field field) records d
                Hin Hnone) as [e ->].
    eexists. reflexivity. }
  rewrite He. unfold internal_error. eexists. eexists. reflexivity.
Qed.

(** X13. With no records at all the statistics are still produced: every
    field is reported with 0 of 0 completed and the zero percentage, no
    division being made. *)
Theorem X13_statistics_of_no_records
    (w : world) (e' : env) :
  extract extract_mygap_tbm_data false (w_env w) = (inr (PList []), e') ->
  (Main.get_mygap_stats extract PF_DATA_FIELDS isspace float percentage
     float_zero) w
  = (inr (Main.mkStatsResponse float true
            "Statistics for 0 MyGAP certification records" 0 (clock e')
            (map (fun f => Main.mkFieldStats float (Main.output_field f) 0 0
                                             float_zero)
                 PF_DATA_FIELDS)),
     set_env e' (record_event (EvExtract extract_mygap_tbm_data false) w)).
Proof.
  intros Hfetch.
  rewrite get_mygap_stats_unfold. cbv zeta. rewrite Hfetch.
  cbn [is_none len List.length Z.of_nat].
  assert (Hloop : (Main.field_stats_loop isspace float percentage float_zero)
      (PList []) 0 PF_DATA_FIELDS
                  = inr (map (fun f => Main.mkFieldStats float
                                         (Main.output_field f) 0 0 float_zero)
                             PF_DATA_FIELDS)).
  { induction PF_DATA_FIELDS as [|f fields IH]; [reflexivity|].
    cbn [Main.field_stats_loop map]. rewrite IH. reflexivity. }
  rewrite Hloop. reflexivity.
Qed.

(** X14. A download hands on what the scraping function returned, as it
    is, with its length as the record count; the field list it reports has
    an entry for each data field and never the name [projek]; the scraping
    function was called once, with [save_to_file=False]. *)
Theorem X14_download_passes_the_scraped_data_through
    (s : scraper) (w w' : world)
    (resp : Main.DownloadResponse) :
  (Main.download_json extract PF_DATA_FIELDS AM_DATA_FIELDS strftime)
      s w = (inr resp, w') ->
  fst (extract s false (w_env w)) = inr (Main.download_data resp)
  /\ len (Main.download_data resp) = inr (Main.download_total_records resp)
  /\ List.length (Main.download_fields resp)
     = List.length (Main.download_source_fields PF_DATA_FIELDS
                      AM_DATA_FIELDS s)
  /\ ~ In "projek" (Main.download_fields resp)
  /\ trace w' = (trace w ++ [EvExtract s false])%list.
Proof.
  unfold Main.download_json, try_except, bind, call_extract.
  cbn [w_env record_event].
  destruct (extract s false (w_env w)) as [[e|raw] e']; [discriminate|].
  destruct (is_none raw); [discriminate|].
  unfold ret, lift, datetime_now, gets.
  destruct (len raw) as [e|n] eqn:Hlen; [discriminate|].
  intros H. injection H as <- <-. cbn.
  split; [reflexivity|]. split; [exact Hlen|].
  split; [apply length_map|]. split; [|reflexivity].
  intros Hin. apply in_map_iff in Hin. destruct Hin as [f [Hf _]].
  exact (output_field_not_projek f Hf).
Qed.

(** X15. When the scraping function returns [None], a download fails with
    status 500. *)
Theorem X15_download_of_nothing_fails_with_500
    (s : scraper) (w : world) :
  fst (extract s false (w_env w)) = inr PNone ->
  exists detail w',
    (Main.download_json extract PF_DATA_FIELDS AM_DATA_FIELDS strftime)
        s w = (inl (HTTPException 500 detail), w')
    /\ trace w' = (trace w ++ [EvExtract s false])%list.
Proof.
  intros Hfetch.
  unfold Main.download_json, try_except, bind, call_extract.
  cbn [w_env record_event].
  destruct (extract s false (w_env w)) as [r e'].
  cbn [fst] in Hfetch. subst r. cbn [is_none].
  eexists. eexists. split; reflexivity.
Qed.

End StatsAndDownloads.

(* ================================================================= *)
(** ** Further properties of the scraping jobs and the batch *)

(** A test and its negation split a list. *)
Lemma filter_partition_length {A : Type} (p : A -> bool) (l : list A) :
  (List.length (filter p l) + List.length (filter (fun x => negb (p x)) l)
   = List.length l)%nat.
Proof.
  induction l as [|x l IH]; [reflexivity|].
  cbn [filter]. destruct (p x); cbn [negb List.length]; lia.
Qed.

(** In a dict-like list with distinct keys, every key is listed either
    among the keys bound to [true] or among those bound to [false]. *)
Lemma keys_split_by_value (results : list (string * bool)) (k : string) :
  NoDup (map fst results) ->
  In k (map fst results) ->
  (In k (map fst (filter (fun r => snd r) results))
   /\ ~ In k (map fst (filter (fun r => negb (snd r)) results)))
  \/ (In k (map fst (filter (fun r => negb (snd r)) results))
      /\ ~ In k (map fst (filter (fun r => snd r) results))).
Proof.
  intros Hnd Hin.
  assert (Huniq : forall b1 b2, In (k, b1) results -> In (k, b2) results ->
                                b1 = b2).
  { clear Hin. induction results as [|[k0 b0] results IH]; [intros ? ? []|].
    cbn [map fst] in Hnd. inversion Hnd as [|? ? Hnotin Hnd']; subst.
    intros b1 b2 [H1|H1] [H2|H2].
    - congruence.
    - exfalso. apply Hnotin. injection H1 as -> _.
      apply in_map_iff. exists (k, b2). split; [reflexivity|exact H2].
    - exfalso. apply Hnotin. injection H2 as -> _.
      apply in_map_iff. exists (k, b1). split; [reflexivity|exact H1].
    - apply IH; assumption. }
  assert (Hmem : forall (p : string * bool -> bool),
             In k (map fst (filter p results))
             <-> exists b, In (k, b) results /\ p (k, b) = true).
  { intros p. rewrite in_map_iff. split.
    - intros [[k' b] [Hk Hf]]. cbn [fst] in Hk. subst k'.
      apply filter_In in Hf. exists b. exact Hf.
    - intros [b [Hb Hp]]. exists (k, b). split; [reflexivity|].
      apply filter_In. split; assumption. }
  apply in_map_iff in Hin. destruct Hin as [[k' b] [Hk Hb]].
  cbn [fst] in Hk. subst k'.
  destruct b.
  - left. split.
    + apply Hmem. exists true. split; [exact Hb|reflexivity].
    + intros H. apply Hmem in H. destruct H as [b' [Hb' Hp]].
      rewrite (Huniq b' true Hb' Hb) in Hp. discriminate Hp.
  - right. split.
    + apply Hmem. exists false. split; [exact Hb|reflexivity].
    + intros H. apply Hmem in H. destruct H as [b' [Hb' Hp]].
      rewrite (Huniq b' false Hb' Hb) in Hp. discriminate Hp.
Qed.

Section MoreBatch.

Variable extract : scraper -> bool -> env -> (exn + pyval) * env.

(** The loop of the batch leaves the scheduler's own state alone. *)
Lemma batch_loop_frame (l : list (string * scraper))
    (acc res : list (string * bool)) (w w' : world) :
  for_each l
    (fun '(scraper_name, scraper_func) results =>
       success <- Scheduler.run_scraping_job extract scraper_name scraper_func ;;
       sleep 2 ;;;
       ret (dict_set scraper_name success results))
    acc w
  = (inr res, w') ->
  running w' = running w
  /\ scheduler_thread w' = scheduler_thread w
  /\ jobs w' = jobs w
  /\ next_job_id w' = next_job_id w.
Proof.
  revert acc w. induction l as [|[n f] l IH]; intros acc w H.
  - cbn in H. injection H as _ <-. repeat split.
  - cbn [for_each] in H. unfold bind at 1 in H. unfold bind at 1 in H.
    rewrite run_scraping_job_total in H.
    unfold bind at 1 in H. unfold sleep at 1, modify at 1, ret at 1 in H.
    apply IH in H. exact H.
Qed.

(** A batch, as a whole: it completes, its trace is that of the five
    sources, and the scheduler's own state is as before. *)
Lemma run_all_scrapers_frame (w : world) :
  exists summary w',
    Scheduler.run_all_scrapers extract w = (inr summary, w')
    /\ trace w' = (trace w ++ batch_events Scheduler.scraping_functions)%list
    /\ running w' = running w
    /\ scheduler_thread w' = scheduler_thread w
    /\ jobs w' = jobs w
    /\ next_job_id w' = next_job_id w
    /\ exists bs,
         List.length bs = List.length Scheduler.scraping_functions
         /\ Scheduler.results summary
            = assign_all (map fst Scheduler.scraping_functions) bs []
         /\ Scheduler.successful_scrapers summary
            = map fst (filter (fun r => snd r) (Scheduler.results summary))
         /\ Scheduler.failed_scrapers summary
            = map fst (filter (fun r => negb (snd r))
                              (Scheduler.results summary)).
Proof.
  destruct (batch_loop extract Scheduler.scraping_functions [] w)
    as [bs [w' [Hrun [Hlen [Htr _]]]]].
  pose proof (batch_loop_frame Scheduler.scraping_functions [] _ w w' Hrun)
    as Hframe.
  unfold Scheduler.run_all_scrapers.
  unfold bind at 1. unfold datetime_now at 1, gets at 1.
  unfold bind at 1.
  match goal with
  | |- context [for_each ?l ?body ?acc ?w0] =>
      replace (for_each l body acc w0)
        with (@inr exn _ (assign_all (map fst Scheduler.scraping_functions)
                                     bs []), w')
        by (symmetry; exact Hrun)
  end.
  unfold bind, datetime_now, gets, ret.
  eexists. exists w'. split; [reflexivity|]. split; [exact Htr|].
  destruct Hframe as [H1 [H2 [H3 H4]]].
  repeat (split; [assumption|]).
  exists bs. repeat split. exact Hlen.
Qed.

(** X16. A scraping job never raises.  It calls its scraping function
    once, with [save_to_file=True], and returns [True] exactly when the
    function returned something other than [None]; an exception of the
    function gives [False].  The scheduler's flag, thread and jobs are not
    touched. *)
Theorem X16_scraping_job_reports_failure_instead_of_raising
    (scraper_name : string) (f : scraper) (w : world) :
  exists b w',
    Scheduler.run_scraping_job extract scraper_name f w = (inr b, w')
    /\ trace w' = (trace w ++ [EvExtract f true])%list
    /\ (b = true <->
        exists v, fst (extract f true (w_env w)) = inr v /\ v <> PNone)
    /\ running w' = running w
    /\ scheduler_thread w' = scheduler_thread w
    /\ jobs w' = jobs w.
Proof.
  exists (job_success extract f w), (after_job extract f w).
  split; [apply run_scraping_job_total|]. split; [reflexivity|].
  split; [|repeat split].
  unfold job_success.
  destruct (fst (extract f true (w_env w))) as [e|v].
  - split; [discriminate|]. intros [v [Hv _]]. discriminate Hv.
  - split.
    + intros Hb. exists v. split; [reflexivity|]. intros ->. discriminate Hb.
    + intros [v' [Hv Hne]]. injection Hv as Hv. subst v'.
      destruct v; [contradiction|reflexivity..].
Qed.

(** X17. In the summary of a batch every registered source is listed
    either as successful or as failed, never in both lists, and nothing
    else is listed: the two lists hold five names together. *)
Theorem X17_summary_splits_the_five_sources (w : world) :
  exists summary w',
    Scheduler.run_all_scrapers extract w = (inr summary, w')
    /\ (forall name, In name (map fst Scheduler.scraping_functions) ->
          (In name (Scheduler.successful_scrapers summary)
           /\ ~ In name (Scheduler.failed_scrapers summary))
          \/ (In name (Scheduler.failed_scrapers summary)
              /\ ~ In name (Scheduler.successful_scrapers summary)))
    /\ (forall name,
          In name (Scheduler.successful_scrapers summary)
          \/ In name (Scheduler.failed_scrapers summary) ->
          In name (map fst Scheduler.scraping_functions))
    /\ (List.length (Scheduler.successful_scrapers summary)
        + List.length (Scheduler.failed_scrapers summary) = 5)%nat.
Proof.
  destruct (run_all_scrapers_frame w)
    as [summary [w' [Hrun [_ [_ [_ [_ [_ [bs [Hlen [Hres [Hs Hf]]]]]]]]]]]].
  exists summary, w'. split; [exact Hrun|].
  assert (Hkeys : map fst (Scheduler.results summary)
                  = map fst Scheduler.scraping_functions).
  { rewrite Hres.
    do 5 (destruct bs as [|? bs]; [discriminate|]).
    destruct bs; [|discriminate]. reflexivity. }
  assert (Hnd : NoDup (map fst (Scheduler.results summary))).
  { rewrite Hkeys. cbn.
    repeat (constructor; [cbn; intuition discriminate|]). constructor. }
  rewrite Hs, Hf. split; [|split].
  - intros name Hin. apply keys_split_by_value; [exact Hnd|].
    rewrite Hkeys. exact Hin.
  - intros name [Hin|Hin]; rewrite <- Hkeys;
      apply in_map_iff in Hin; destruct Hin as [r [Hr Hin]];
      apply filter_In in Hin; destruct Hin as [Hin _];
      apply in_map_iff; exists r; split; assumption.
  - rewrite !length_map, filter_partition_length.
    rewrite <- (length_map fst), Hkeys. reflexivity.
Qed.

(** X18. A batch never touches the scheduler's own state: the running
    flag, the thread and the registered jobs are after it what they were
    before. *)
Theorem X18_batch_leaves_the_scheduler_state (w : world) :
  let w' := snd (Scheduler.run_all_scrapers extract w) in
  running w' = running w
  /\ scheduler_thread w' = scheduler_thread w
  /\ jobs w' = jobs w.
Proof.
  destruct (run_all_scrapers_frame w)
    as [summary [w' [Hrun [_ [H1 [H2 [H3 _]]]]]]].
  rewrite Hrun. cbn. repeat split; assumption.
Qed.

(** X19. The single-source run of a registered name is the scraping job
    of the function registered under that name: that function, and no
    other, is called once. *)
Theorem X19_single_run_calls_the_registered_function
    (scraper_name : string) (f : scraper) (w : world) :
  In (scraper_name, f) Scheduler.scraping_functions ->
  Scheduler.run_single_scraper extract scraper_name w
  = Scheduler.run_scraping_job extract scraper_name f w
  /\ trace (snd (Scheduler.run_single_scraper extract scraper_name w))
     = (trace w ++ [EvExtract f true])%list.
Proof.
  intros Hin.
  assert (Heq : Scheduler.run_single_scraper extract scraper_name w
                = Scheduler.run_scraping_job extract scraper_name f w).
  { unfold Scheduler.scraping_functions in Hin. cbn in Hin.
    repeat (destruct Hin as [Hin|Hin];
            [injection Hin as <- <-; reflexivity|]).
    destruct Hin. }
  split; [exact Heq|].
  rewrite Heq, run_scraping_job_total. reflexivity.
Qed.

End MoreBatch.

Lemma X19_witness :
  Scheduler.run_single_scraper Examples.working_extract "Organic"
    (initial_world 0 [])
  = Scheduler.run_scraping_job Examples.working_extract "Organic"
      extract_mygap_organic_data (initial_world 0 [])
  /\ trace (snd (Scheduler.run_single_scraper Examples.working_extract
                   "Organic" (initial_world 0 [])))
     = (trace (initial_world 0 [])
        ++ [EvExtract extract_mygap_organic_data true])%list.
Proof.
  apply (X19_single_run_calls_the_registered_function
           Examples.working_extract "Organic" extract_mygap_organic_data
           (initial_world 0 [])).
  cbn. tauto.
Defined.

(* ================================================================= *)
(** ** Further properties of the scheduler's life cycle *)

(** A daily job that has just run is scheduled for the next occurrence of
    its time of day. *)
Lemma rescheduled_daily_run (id : nat) (now t x : Z) :
  0 <= t < Schedule.day ->
  let next := Schedule.schedule_next_run now
                (mkJob id Schedule.day (Some t) (Some now) x) in
  now < next <= now + Schedule.day /\ next mod Schedule.day = t.
Proof.
  intros Ht. unfold Schedule.schedule_next_run.
  cbn [period at_time last_run].
  rewrite Z.eqb_refl, andb_true_r.
  assert (Hd : 0 < Schedule.day) by reflexivity.
  generalize dependent Schedule.day. intros d Ht Hd.
  replace (now + d) with (now + 1 * d) by lia.
  rewrite Z.div_add by lia.
  pose proof (Z.div_mod now d ltac:(lia)) as Hdm.
  pose proof (Z.mod_pos_bound now d Hd) as Hm.
  destruct (Z.ltb_spec (now mod d) t) as [Hlt|Hge].
  - destruct (Z.ltb_spec d ((now / d + 1) * d + t - now)) as [_|Hle];
      [|exfalso; nia].
    cbn [andb]. split; [nia|].
    replace ((now / d + 1) * d + t - d) with (t + (now / d) * d) by lia.
    rewrite Z.mod_add by lia. apply Z.mod_small. lia.
  - rewrite andb_false_r. split; [nia|].
    replace ((now / d + 1) * d + t) with (t + (now / d + 1) * d) by lia.
    rewrite Z.mod_add by lia. apply Z.mod_small. lia.
Qed.

Lemma fold_min_spec (js : list job) (m0 : Z) :
  let m := fold_left (fun m j' => if next_run j' <? m then next_run j' else m)
                     js m0 in
  (m = m0 \/ In m (map next_run js))
  /\ m <= m0
  /\ forall j, In j js -> m <= next_run j.
Proof.
  revert m0. induction js as [|j js IH]; intros m0; cbn.
  - repeat split; [left; reflexivity|lia|intros j []].
  - destruct (IH (if next_run j <? m0 then next_run j else m0))
      as [Hin [Hle Hall]].
    destruct (Z.ltb_spec (next_run j) m0) as [Hlt|Hge].
    + repeat split.
      * right. destruct Hin as [->|Hin]; [left; reflexivity|right; exact Hin].
      * lia.
      * intros j' [<-|Hj']; [exact Hle|apply Hall, Hj'].
    + repeat split.
      * destruct Hin as [->|Hin]; [left; reflexivity|right; right; exact Hin].
      * exact Hle.
      * intros j' [<-|Hj']; [lia|apply Hall, Hj'].
Qed.

Lemma nothing_due (js : list job) (now : Z) :
  (forall j, In j js -> now < next_run j) ->
  filter (fun j => next_run j <=? now) js = [].
Proof.
  intros H. induction js as [|j js IH]; [reflexivity|].
  cbn [filter].
  destruct (Z.leb_spec (next_run j) now) as [Hle|_].
  - specialize (H j (or_introl eq_refl)). lia.
  - apply IH. intros j' Hj'. apply H. right. exact Hj'.
Qed.

(** Starting with no live thread and an accepted time string. *)
Lemma start_when_not_alive (time_str : string) (t : Z) (w : world) :
  match scheduler_thread w with
  | Some ph => is_alive ph
  | None => false
  end = false ->
  Schedule.parse_at_time time_str = inr t ->
  Scheduler.start_background_scheduler time_str w
  = (inr tt,
     record_event (EvThreadStart run_scheduler_task)
       (set_scheduler_thread (Some Spawned)
          (add_job
             (fun id =>
                mkJob id Schedule.day (Some t) None
                  (Schedule.schedule_next_run (clock (w_env w))
                     (mkJob id Schedule.day (Some t) None 0)))
             w))).
Proof.
  intros Hth Hparse.
  unfold Scheduler.start_background_scheduler,
    Scheduler.schedule_daily_scraping, Schedule.every_day_at_do,
    bind, gets, modify, lift, datetime_now.
  rewrite Hth, Hparse. reflexivity.
Qed.

Section MoreLifecycle.

Variable extract : scraper -> bool -> env -> (exn + pyval) * env.
Variable strftime : Z -> string.

(** X20. Starting an already started scheduler changes nothing, whatever
    the time string of the second call: the job of the first start stays
    the only one, at its time, and no second thread is started. *)
Theorem X20_second_start_changes_nothing
    (time_str other : string) (t : Z) (w : world) :
  match scheduler_thread w with
  | Some ph => is_alive ph
  | None => false
  end = false ->
  Schedule.parse_at_time time_str = inr t ->
  let w1 := snd (Scheduler.start_background_scheduler time_str w) in
  Scheduler.start_background_scheduler other w1 = (inr tt, w1)
  /\ List.length (jobs w1) = S (List.length (jobs w)).
Proof.
  intros Hth Hparse w1. subst w1.
  rewrite (start_when_not_alive time_str t w Hth Hparse).
  cbn [snd]. split.
  - apply (start_while_alive other _ Spawned); reflexivity.
  - cbn [jobs record_event set_scheduler_thread add_job].
    rewrite length_app. cbn. lia.
Qed.

(** X21. A time string of ASCII characters that the schedule library
    refuses (it is not [HH:MM] or [HH:MM:SS], possibly followed by one
    final newline, or its hour is above 23) makes the start raise the
    error of the library; no job is registered and no thread is started. *)
Theorem X21_start_with_a_refused_time_raises_and_starts_nothing
    (time_str : string) (e : exn) (w : world) :
  ascii_only time_str = true ->
  match scheduler_thread w with
  | Some ph => is_alive ph
  | None => false
  end = false ->
  Schedule.parse_at_time time_str = inl e ->
  Scheduler.start_background_scheduler time_str w = (inl e, w)
  /\ (e = Schedule.ScheduleValueError Schedule.invalid_time_format
      \/ e = Schedule.ScheduleValueError Schedule.invalid_number_of_hours).
Proof.
  intros _ Hth Hparse. split.
  - unfold Scheduler.start_background_scheduler,
      Scheduler.schedule_daily_scraping, Schedule.every_day_at_do,
      bind, gets, lift.
    rewrite Hth, Hparse. reflexivity.
  - unfold Schedule.parse_at_time in Hparse.
    destruct time_str as [|h1 [|h2 [|c [|m1 [|m2 rest]]]]];
      try (left; congruence).
    destruct (if Ascii.eqb c ":" then Schedule.two_digits 2 h1 h2 else None)
      as [h|]; [|left; congruence].
    destruct (Schedule.two_digits 5 m1 m2) as [m|]; [|left; congruence].
    destruct (Schedule.parse_seconds rest) as [sec|]; [|left; congruence].
    destruct (h <=? 23); [discriminate Hparse|right; congruence].
Qed.

(** X22. The start-up of the application on a scheduler without thread
    and jobs registers the daily job for the coming midnight: the next run
    is the start of the next day.  The thread is started, and the running
    flag keeps its value until the thread sets it. *)
Theorem X22_startup_schedules_the_coming_midnight (w : world) :
  match scheduler_thread w with
  | Some ph => is_alive ph
  | None => false
  end = false ->
  jobs w = [] ->
  let w' := snd (Main.startup_event w) in
  Scheduler.next_run_datetime w'
  = Some ((clock (w_env w) / Schedule.day + 1) * Schedule.day)
  /\ scheduler_thread w' = Some Spawned
  /\ running w' = running w
  /\ trace w' = (trace w ++ [EvThreadStart run_scheduler_task])%list.
Proof.
  intros Hth Hjobs w'. subst w'.
  unfold Main.startup_event, Scheduler.start_scheduler.
  rewrite (start_when_not_alive "00:00" 0 w Hth eq_refl).
  cbn [snd]. unfold Scheduler.next_run_datetime.
  cbn [jobs record_event set_scheduler_thread add_job scheduler_thread
       running trace].
  rewrite Hjobs. cbn [app Schedule.min_next_run fold_left next_run].
  split; [|repeat split].
  f_equal. unfold Schedule.schedule_next_run.
  cbn [period at_time last_run].
  assert (Hd : 0 < Schedule.day) by reflexivity.
  pose proof (Z.mod_pos_bound (clock (w_env w)) Schedule.day Hd) as Hm.
  destruct (Z.ltb_spec (clock (w_env w) mod Schedule.day) 0); [lia|].
  rewrite andb_false_r.
  replace (clock (w_env w) + Schedule.day)
    with (clock (w_env w) + 1 * Schedule.day) by lia.
  rewrite Z.div_add by lia. lia.
Qed.

(** X23. A stop that comes before the thread has executed its first
    statement is lost: the thread then sets the flag again and enters its
    loop, with no job left to run. *)
Theorem X23_stop_before_the_first_step_is_overwritten (w : world) :
  scheduler_thread w = Some Spawned ->
  let w' := snd (Scheduler.thread_step extract
                   (snd (Scheduler.stop_scheduler w))) in
  running w' = true
  /\ scheduler_thread w' = Some Looping
  /\ jobs w' = []
  /\ Scheduler.next_run_datetime w' = None.
Proof.
  intros Hth w'. subst w'.
  rewrite (stop_scheduler_started w Spawned Hth). cbn [snd].
  unfold Scheduler.thread_step, bind, gets, modify.
  cbn [scheduler_thread set_jobs set_running]. rewrite Hth.
  repeat split.
Qed.

(** X24. Stopping a scheduler that was started clears the flag and the
    jobs: the status then reports not running and no next run.  A second
    stop changes nothing more. *)
Theorem X24_stop_clears_flag_and_jobs (w : world) (ph : thread_phase) :
  scheduler_thread w = Some ph ->
  let w' := snd (Scheduler.stop_scheduler w) in
  running w' = false
  /\ jobs w' = []
  /\ Scheduler.get_scheduler_status strftime w'
     = (inr (Scheduler.mkStatus false None
               ["TBM"; "PF"; "AM"; "Organic"; "Tanaman"]), w')
  /\ Scheduler.stop_scheduler w' = (inr tt, w').
Proof.
  intros Hth w'. subst w'.
  rewrite (stop_scheduler_started w ph Hth). cbn [snd].
  split; [reflexivity|]. split; [reflexivity|]. split; [reflexivity|].
  rewrite (stop_scheduler_started _ ph); [reflexivity|exact Hth].
Qed.

(** X25. Stopping a scheduler whose thread was never started only clears
    the flag: jobs registered by hand stay registered, and a next run time
    is still reported. *)
Theorem X25_stop_without_thread_keeps_the_jobs (w : world) :
  scheduler_thread w = None ->
  let w' := snd (Scheduler.stop_scheduler w) in
  running w' = false
  /\ jobs w' = jobs w
  /\ Scheduler.next_run_datetime w' = Scheduler.next_run_datetime w.
Proof.
  intros Hth w'. subst w'.
  unfold Scheduler.stop_scheduler, bind, gets, modify.
  cbn [scheduler_thread set_running]. rewrite Hth.
  repeat split.
Qed.

(** X26. The next run time reported is that of the job due first: absent
    exactly when no job is registered, and otherwise the run time of one of
    the jobs, not later than that of any job.  The query changes nothing. *)
Theorem X26_next_run_time_is_the_earliest (w : world) :
  (jobs w = []
   /\ Scheduler.get_next_run_time strftime w = (inr None, w))
  \/ (exists m,
        Scheduler.get_next_run_time strftime w = (inr (Some (strftime m)), w)
        /\ In m (map next_run (jobs w))
        /\ forall j, In j (jobs w) -> m <= next_run j).
Proof.
  unfold Scheduler.get_next_run_time, Schedule.get_jobs, bind, gets.
  destruct (jobs w) as [|j js]; [left; split; reflexivity|].
  right. exists (Schedule.min_next_run j js). split; [reflexivity|].
  unfold Schedule.min_next_run.
  destruct (fold_min_spec js (next_run j)) as [Hin [Hle Hall]].
  split.
  - destruct Hin as [->|Hin]; [left; reflexivity|right; exact Hin].
  - intros j' [<-|Hj']; [exact Hle|apply Hall, Hj'].
Qed.

(** X27. A poll of the running scheduler at which no job is due only
    sleeps 30 seconds: no scraping function is called and the jobs stay as
    they are. *)
Theorem X27_poll_with_nothing_due_only_sleeps (w : world) :
  scheduler_thread w = Some Looping ->
  running w = true ->
  (forall j, In j (jobs w) -> clock (w_env w) < next_run j) ->
  Scheduler.thread_step extract w
  = (inr tt,
     record_event (EvSleep 30)
       (set_clock (clock (w_env w) + seconds 30) w)).
Proof.
  intros Hth Hrun Hdue.
  unfold Scheduler.thread_step.
  unfold bind at 1, gets at 1. rewrite Hth.
  unfold bind at 1, gets at 1. rewrite Hrun.
  unfold try_except, Schedule.run_pending.
  unfold bind at 1. unfold bind at 1.
  unfold datetime_now at 1, gets at 1.
  unfold bind at 1. unfold Schedule.get_jobs at 1, gets at 1.
  rewrite (nothing_due (jobs w) (clock (w_env w)) Hdue).
  reflexivity.
Qed.

(** X28. A poll at which the daily job is due runs one batch, the five
    scraping functions in registry order, then schedules the job again:
    its last run is the time the batch ended, its next run is the next
    occurrence of its time of day after that, at most a day later.  The
    poll ends with its sleep of 30 seconds. *)
Theorem X28_due_daily_job_runs_one_batch_and_is_rescheduled
    (w : world) (j : job) (t : Z) :
  scheduler_thread w = Some Looping ->
  running w = true ->
  jobs w = [j] ->
  period j = Schedule.day ->
  at_time j = Some t ->
  0 <= t < Schedule.day ->
  next_run j <= clock (w_env w) ->
  exists w' j' ended,
    Scheduler.thread_step extract w = (inr tt, w')
    /\ jobs w' = [j']
    /\ job_id j' = job_id j
    /\ at_time j' = Some t
    /\ last_run j' = Some ended
    /\ ended < next_run j' <= ended + Schedule.day
    /\ next_run j' mod Schedule.day = t
    /\ clock (w_env w') = ended + seconds 30
    /\ extract_calls (trace w')
       = (extract_calls (trace w) ++ map snd Scheduler.scraping_functions)%list
    /\ scheduler_thread w' = Some Looping.
Proof.
  intros Hth Hrun Hjobs Hper Hat Ht Hdue.
  destruct (run_all_scrapers_frame extract w)
    as [summary [wb [Hbatch [Htr [_ [Hthb [Hjb _]]]]]]].
  set (ended := clock (w_env wb)).
  set (j' := mkJob (job_id j) (period j) (at_time j) (Some ended)
               (Schedule.schedule_next_run ended
                  (mkJob (job_id j) (period j) (at_time j) (Some ended)
                         (next_run j)))).
  assert (Hstep : Scheduler.thread_step extract w
                  = (inr tt,
                     record_event (EvSleep 30)
                       (set_clock (ended + seconds 30) (set_jobs [j'] wb)))).
  { unfold Scheduler.thread_step.
    unfold bind at 1, gets at 1. rewrite Hth.
    unfold bind at 1, gets at 1. rewrite Hrun.
    unfold try_except, Schedule.run_pending.
    unfold bind at 1. unfold bind at 1.
    unfold datetime_now at 1, gets at 1.
    unfold bind at 1. unfold Schedule.get_jobs at 1, gets at 1.
    rewrite Hjobs. cbn [filter].
    destruct (Z.leb_spec (next_run j) (clock (w_env w))) as [_|Hgt]; [|lia].
    cbn [Schedule.sorted_jobs fold_right Schedule.insert_job for_each].
    unfold bind at 1. unfold bind at 1. unfold bind at 1.
    rewrite Hbatch. unfold ret at 1.
    unfold Schedule.reschedule, bind at 1, datetime_now at 1, gets at 1.
    unfold modify at 1. unfold ret at 1.
    unfold sleep, modify.
    rewrite Hjb, Hjobs. cbn [map]. rewrite Nat.eqb_refl.
    reflexivity. }
  exists (record_event (EvSleep 30)
            (set_clock (ended + seconds 30) (set_jobs [j'] wb))), j', ended.
  split; [exact Hstep|].
  split; [reflexivity|]. split; [reflexivity|].
  split; [exact Hat|]. split; [reflexivity|].
  assert (Hnext : ended < next_run j' <= ended + Schedule.day
                  /\ next_run j' mod Schedule.day = t).
  { unfold j'. cbn [next_run]. rewrite Hper, Hat.
    apply rescheduled_daily_run, Ht. }
  destruct Hnext as [Hn1 Hn2].
  split; [exact Hn1|]. split; [exact Hn2|]. split; [reflexivity|].
  split.
  - cbn [trace record_event set_clock set_env set_jobs].
    rewrite Htr. unfold extract_calls. rewrite !flat_map_app.
    cbn. rewrite app_nil_r. reflexivity.
  - cbn [scheduler_thread record_event set_clock set_env set_jobs].
    rewrite Hthb. exact Hth.
Qed.

(** X29. A registered name given to the single-source endpoint is
    acknowledged at once: the response names the source, one thread is
    started for it, and no scraping function is called by the request
    itself. *)
Theorem X29_single_source_trigger_only_starts_a_thread
    (scraper_name : string) (w : world) :
  In scraper_name ["TBM"; "PF"; "AM"; "Organic"; "Tanaman"] ->
  exists resp w',
    Main.run_single_scraper_endpoint scraper_name w = (inr resp, w')
    /\ Main.single_success resp = true
    /\ Main.single_scraper resp = scraper_name
    /\ trace w'
       = (trace w ++ [EvThreadStart (run_scraper_task scraper_name)])%list
    /\ extract_calls (trace w') = extract_calls (trace w).
Proof.
  intros Hin. apply str_in_In in Hin.
  unfold Main.run_single_scraper_endpoint, try_except, bind.
  rewrite Hin. cbn [negb].
  eexists. eexists. split; [reflexivity|].
  cbn. repeat split.
  unfold extract_calls. rewrite flat_map_app. cbn. apply app_nil_r.
Qed.

(** X30. The health endpoint never answers: the name
    [get_scheduler_status] denotes the status endpoint when it runs, so it
    subscripts a coroutine object and the [TypeError] leaves the function,
    which has no handler.  The function of scheduler.py that it means to
    call would have answered in the same state, with the flag and the five
    names, changing nothing. *)
Theorem X30_health_check_always_raises (w : world) :
  Main.health_check strftime w
  = (inl (PyExc TypeError "'coroutine' object is not subscriptable"), w)
  /\ exists status,
       Scheduler.get_scheduler_status strftime w = (inr status, w)
       /\ Scheduler.status_running status = running w
       /\ Scheduler.status_available_scrapers status
          = ["TBM"; "PF"; "AM"; "Organic"; "Tanaman"]
       /\ (Scheduler.status_next_run status = None <-> jobs w = []).
Proof.
  split; [reflexivity|].
  rewrite (scheduler_get_scheduler_status_total strftime w).
  eexists. split; [reflexivity|]. cbn.
  split; [reflexivity|]. split; [reflexivity|].
  unfold Scheduler.next_run_datetime.
  destruct (jobs w); cbn; split; try reflexivity; discriminate.
Qed.

End MoreLifecycle.

(* ================================================================= *)
(** ** The further properties on sample worlds *)

(** The statistics of three records, one with a blank name and one
    without a name. *)
Example stats_of_three_records :
  fst (Main.get_mygap_stats MoreExamples.stats_extract
         MoreExamples.data_fields MoreExamples.blank (option (Z * Z))
         MoreExamples.pair_percentage None (initial_world 0 []))
  = inr MoreExamples.stats_response.
Proof. reflexivity. Qed.

Lemma X11_witness :
  map (Main.field_name (option (Z * Z)))
      (Main.field_statistics (option (Z * Z)) MoreExamples.stats_response)
  = map Main.output_field MoreExamples.data_fields
  /\ Forall (fun st =>
               Main.total_count (option (Z * Z)) st
               = Main.stats_total_records (option (Z * Z))
                   MoreExamples.stats_response
               /\ 0 <= Main.completed_count (option (Z * Z)) st
                    <= Main.total_count (option (Z * Z)) st)
            (Main.field_statistics (option (Z * Z))
               MoreExamples.stats_response)
  /\ trace (record_event (EvExtract extract_mygap_tbm_data false)
              (initial_world 0 []))
     = (trace (initial_world 0 [])
        ++ [EvExtract extract_mygap_tbm_data false])%list.
Proof.
  apply (X11_statistics_are_per_field_counts_within_the_total
           MoreExamples.stats_extract MoreExamples.data_fields
           MoreExamples.blank (option (Z * Z)) MoreExamples.pair_percentage
           None (initial_world 0 [])).
  reflexivity.
Defined.

Lemma X12_witness :
  exists detail w',
    Main.get_mygap_stats MoreExamples.none_extract MoreExamples.data_fields
      MoreExamples.blank (option (Z * Z)) MoreExamples.pair_percentage None
      (initial_world 0 [])
    = (inl (HTTPException 500 detail), w').
Proof.
  apply (X12_statistics_fail_on_a_null_field
           MoreExamples.none_extract MoreExamples.data_fields
           MoreExamples.blank (option (Z * Z)) MoreExamples.pair_percentage
           None (initial_world 0 [])
           [PDict [("no_pensijilan", PStr "A1"); ("nama", PNone)]]
           [("no_pensijilan", PStr "A1"); ("nama", PNone)] "nama").
  - reflexivity.
  - left. reflexivity.
  - right. right. left. reflexivity.
  - reflexivity.
Defined.

Lemma X13_witness :
  Main.get_mygap_stats MoreExamples.empty_extract MoreExamples.data_fields
    MoreExamples.blank (option (Z * Z)) MoreExamples.pair_percentage None
    (initial_world 0 [])
  = (inr (Main.mkStatsResponse (option (Z * Z)) true
            "Statistics for 0 MyGAP certification records" 0
            (clock (mkEnv 0 []))
            (map (fun f => Main.mkFieldStats (option (Z * Z))
                             (Main.output_field f) 0 0 None)
                 MoreExamples.data_fields)),
     set_env (mkEnv 0 [])
       (record_event (EvExtract extract_mygap_tbm_data false)
          (initial_world 0 []))).
Proof.
  apply (X13_statistics_of_no_records
           MoreExamples.empty_extract MoreExamples.data_fields
           MoreExamples.blank (option (Z * Z)) MoreExamples.pair_percentage
           None (initial_world 0 []) (mkEnv 0 [])).
  reflexivity.
Defined.

Lemma X14_witness :
  fst (Examples.working_extract extract_mygap_am_data false
         (w_env (initial_world 5 [])))
  = inr (Main.download_data MoreExamples.download_response)
  /\ len (Main.download_data MoreExamples.download_response)
     = inr (Main.download_total_records MoreExamples.download_response)
  /\ List.length (Main.download_fields MoreExamples.download_response)
     = List.length (Main.download_source_fields MoreExamples.data_fields
                      MoreExamples.data_fields extract_mygap_am_data)
  /\ ~ In "projek" (Main.download_fields MoreExamples.download_response)
  /\ trace (record_event (EvExtract extract_mygap_am_data false)
              (initial_world 5 []))
     = (trace (initial_world 5 [])
        ++ [EvExtract extract_mygap_am_data false])%list.
Proof.
  apply (X14_download_passes_the_scraped_data_through
           Examples.working_extract MoreExamples.data_fields
           MoreExamples.data_fields Examples.render
           extract_mygap_am_data (initial_world 5 [])).
  reflexivity.
Defined.

Lemma X15_witness :
  exists detail w',
    Main.download_json Examples.failing_extract MoreExamples.data_fields
      MoreExamples.data_fields Examples.render extract_mygap_pf_data
      (initial_world 5 [])
    = (inl (HTTPException 500 detail), w')
    /\ trace w' = (trace (initial_world 5 [])
                   ++ [EvExtract extract_mygap_pf_data false])%list.
Proof.
  apply (X15_download_of_nothing_fails_with_500
           Examples.failing_extract MoreExamples.data_fields
           MoreExamples.data_fields Examples.render
           extract_mygap_pf_data (initial_world 5 [])).
  reflexivity.
Defined.

Lemma X20_witness :
  let w1 := snd (Scheduler.start_background_scheduler "00:00"
                   (initial_world (Examples.hours 9) [])) in
  Scheduler.start_background_scheduler "12:30" w1 = (inr tt, w1)
  /\ List.length (jobs w1)
     = S (List.length (jobs (initial_world (Examples.hours 9) []))).
Proof.
  apply (X20_second_start_changes_nothing "00:00" "12:30" 0
           (initial_world (Examples.hours 9) [])).
  - reflexivity.
  - reflexivity.
Defined.

Lemma X21_witness :
  Scheduler.start_background_scheduler "25:00"
    (initial_world (Examples.hours 9) [])
  = (inl (Schedule.ScheduleValueError
            "Invalid number of hours ({} is not between 0 and 23)"),
     initial_world (Examples.hours 9) [])
  /\ (Schedule.ScheduleValueError
        "Invalid number of hours ({} is not between 0 and 23)"
      = Schedule.ScheduleValueError Schedule.invalid_time_format
      \/ Schedule.ScheduleValueError
           "Invalid number of hours ({} is not between 0 and 23)"
         = Schedule.ScheduleValueError Schedule.invalid_number_of_hours).
Proof.
  apply (X21_start_with_a_refused_time_raises_and_starts_nothing "25:00").
  - reflexivity.
  - reflexivity.
  - reflexivity.
Defined.

(** Strings that the library refuses, and the message of each. *)
Example refused_time_strings :
  map Schedule.parse_at_time ["midnight"; "7:30"; "12:60"; "24:00"]
  = [ inl (Schedule.ScheduleValueError Schedule.invalid_time_format);
      inl (Schedule.ScheduleValueError Schedule.invalid_time_format);
      inl (Schedule.ScheduleValueError Schedule.invalid_time_format);
      inl (Schedule.ScheduleValueError Schedule.invalid_number_of_hours) ].
Proof. reflexivity. Qed.

Lemma X22_witness :
  let w' := snd (Main.startup_event (initial_world (Examples.hours 9) [])) in
  Scheduler.next_run_datetime w'
  = Some ((clock (w_env (initial_world (Examples.hours 9) []))
           / Schedule.day + 1) * Schedule.day)
  /\ scheduler_thread w' = Some Spawned
  /\ running w' = running (initial_world (Examples.hours 9) [])
  /\ trace w' = (trace (initial_world (Examples.hours 9) [])
                 ++ [EvThreadStart run_scheduler_task])%list.
Proof.
  apply (X22_startup_schedules_the_coming_midnight
           (initial_world (Examples.hours 9) [])).
  - reflexivity.
  - reflexivity.
Defined.

Lemma X23_witness :
  let w' := snd (Scheduler.thread_step Examples.working_extract
                   (snd (Scheduler.stop_scheduler
                           MoreExamples.spawned_world))) in
  running w' = true
  /\ scheduler_thread w' = Some Looping
  /\ jobs w' = []
  /\ Scheduler.next_run_datetime w' = None.
Proof.
  apply (X23_stop_before_the_first_step_is_overwritten
           Examples.working_extract MoreExamples.spawned_world).
  reflexivity.
Defined.

Lemma X24_witness :
  let w' := snd (Scheduler.stop_scheduler MoreExamples.idle_world) in
  running w' = false
  /\ jobs w' = []
  /\ Scheduler.get_scheduler_status Examples.render w'
     = (inr (Scheduler.mkStatus false None
               ["TBM"; "PF"; "AM"; "Organic"; "Tanaman"]), w')
  /\ Scheduler.stop_scheduler w' = (inr tt, w').
Proof.
  apply (X24_stop_clears_flag_and_jobs Examples.render
           MoreExamples.idle_world Looping).
  reflexivity.
Defined.

Lemma X25_witness :
  let w' := snd (Scheduler.stop_scheduler MoreExamples.unstarted_world) in
  running w' = false
  /\ jobs w' = jobs MoreExamples.unstarted_world
  /\ Scheduler.next_run_datetime w'
     = Scheduler.next_run_datetime MoreExamples.unstarted_world.
Proof.
  apply (X25_stop_without_thread_keeps_the_jobs MoreExamples.unstarted_world).
  reflexivity.
Defined.

Lemma X27_witness :
  Scheduler.thread_step Examples.working_extract MoreExamples.idle_world
  = (inr tt,
     record_event (EvSleep 30)
       (set_clock (clock (w_env MoreExamples.idle_world) + seconds 30)
          MoreExamples.idle_world)).
Proof.
  apply (X27_poll_with_nothing_due_only_sleeps Examples.working_extract
           MoreExamples.idle_world).
  - reflexivity.
  - reflexivity.
  - intros j [<-|[]]. vm_compute. reflexivity.
Defined.

Lemma X28_witness :
  exists w' j' ended,
    Scheduler.thread_step MoreExamples.slow_working_extract
      MoreExamples.due_world = (inr tt, w')
    /\ jobs w' = [j']
    /\ job_id j' = job_id MoreExamples.midnight_job
    /\ at_time j' = Some 0
    /\ last_run j' = Some ended
    /\ ended < next_run j' <= ended + Schedule.day
    /\ next_run j' mod Schedule.day = 0
    /\ clock (w_env w') = ended + seconds 30
    /\ extract_calls (trace w')
       = (extract_calls (trace MoreExamples.due_world)
          ++ map snd Scheduler.scraping_functions)%list
    /\ scheduler_thread w' = Some Looping.
Proof.
  apply (X28_due_daily_job_runs_one_batch_and_is_rescheduled
           MoreExamples.slow_working_extract MoreExamples.due_world
           MoreExamples.midnight_job 0).
  - reflexivity.
  - reflexivity.
  - reflexivity.
  - reflexivity.
  - reflexivity.
  - split; [lia|reflexivity].
  - vm_compute. discriminate.
Defined.

Lemma X29_witness :
  exists resp w',
    Main.run_single_scraper_endpoint "PF" (initial_world 0 [])
    = (inr resp, w')
    /\ Main.single_success resp = true
    /\ Main.single_scraper resp = "PF"
    /\ trace w'
       = (trace (initial_world 0 [])
          ++ [EvThreadStart (run_scraper_task "PF")])%list
    /\ extract_calls (trace w') = extract_calls (trace (initial_world 0 [])).
Proof.
  apply (X29_single_source_trigger_only_starts_a_thread "PF"
           (initial_world 0 [])).
  right. left. reflexivity.
Defined.
